(** * Timesketch analyzer interface (timesketch/lib/analyzers/interface.py)

    A shallow embedding of the analyzer interface: the [Event] and [Sketch]
    handles, the [BaseAnalyzer] event stream and the flush-on-completion
    wrapper.  The Elasticsearch datastore and the relational models are
    collaborators that live outside the file; every call to them is
    recorded in a log, and their answers come from an environment that the
    development quantifies over. *)

From stdpp Require Import gmap strings list fin_maps.

Local Set Warnings "-register-all".

(** ** The fragment of Python values the interface handles *)

Module Py.

(** Documents, hits and arguments are dynamically typed.  [VObj] stands
    for an opaque object (a relational row, a connection). *)
Inductive value : Type :=
  | VNone
  | VInt (z : Z)
  | VStr (s : string)
  | VList (l : list value)
  | VDict (d : gmap string value)
  | VObj (h : nat).

Inductive exn : Type :=
  | KeyError (msg : string)
  | RuntimeError (msg : string)
  | ValueError (msg : string)
  | TypeError (msg : string)
  | AttributeError (msg : string)
  | NotImplementedError
  | StopIteration
  | ExternalError (msg : string).

(** A computation returns or raises. *)
Inductive outcome (A : Type) : Type :=
  | Return (a : A)
  | Raise (e : exn).
Arguments Return {A} a.
Arguments Raise {A} e.

#[global] Instance outcome_ret : MRet outcome := λ A a, Return a.
#[global] Instance outcome_bind : MBind outcome := λ A B f m,
  match m with
  | Return a => f a
  | Raise e => Raise e
  end.

(** [bool(v)]: None, 0, the empty string, list and dict are false. *)
Definition truthy (v : value) : bool :=
  match v with
  | VNone => false
  | VInt z => negb (z =? 0)%Z
  | VStr s => negb (String.eqb s "")
  | VList l => match l with [] => false | _ => true end
  | VDict d => negb (bool_decide (d = ∅))
  | VObj _ => true
  end.

(** [obj.get(key, default)]: on a dict it never raises. *)
Definition get (obj : value) (key : string) (dflt : value) : outcome value :=
  match obj with
  | VDict d => Return (default dflt (d !! key))
  | _ => Raise (AttributeError "get")
  end.

(** [iter(v)]: a list yields its items, a string its characters, a dict
    its keys (in the order of the map); anything else is not iterable. *)
Definition iter (v : value) : outcome (list value) :=
  match v with
  | VList l => Return l
  | VStr s => Return ((λ c, VStr (String c EmptyString)) <$> String.list_ascii_of_string s)
  | VDict d => Return (VStr <$> (map_to_list d).*1)
  | _ => Raise (TypeError "object is not iterable")
  end.

(** *** Sets

    Only hashable values enter a set; lists and dicts raise
    [TypeError: unhashable type]. *)
Inductive hashable : Type :=
  | HNone
  | HInt (z : Z)
  | HStr (s : string)
  | HObj (h : nat).

#[global] Instance hashable_eq_dec : EqDecision hashable.
Proof. solve_decision. Defined.

#[global] Instance HStr_inj : Inj (=) (=) HStr.
Proof. by intros ?? [=]. Qed.

Definition hash (v : value) : outcome hashable :=
  match v with
  | VNone => Return HNone
  | VInt z => Return (HInt z)
  | VStr s => Return (HStr s)
  | VObj h => Return (HObj h)
  | VList _ | VDict _ => Raise (TypeError "unhashable type")
  end.

Definition unhash (h : hashable) : value :=
  match h with
  | HNone => VNone
  | HInt z => VInt z
  | HStr s => VStr s
  | HObj h => VObj h
  end.

(** A set is kept as the sequence of its distinct members, in the order
    they were first added. *)
Definition set_add (s : list hashable) (h : hashable) : list hashable :=
  if decide (h ∈ s) then s else s ++ [h].

Fixpoint set_update (s : list hashable) (items : list value)
  : outcome (list hashable) :=
  match items with
  | [] => Return s
  | v :: items' => h ← hash v; set_update (set_add s h) items'
  end.

(** [s.union(a, b, ...)]: every argument is iterated in turn. *)
Fixpoint set_union (s : list hashable) (others : list value)
  : outcome (list hashable) :=
  match others with
  | [] => Return s
  | o :: others' => items ← iter o; s' ← set_update s items; set_union s' others'
  end.

(** [list(s)]: the iteration order of a set is not specified by the
    language; it is some arrangement of the members. *)
Record SetOrder : Type := {
  set_to_list : list hashable → list hashable;
  set_to_list_perm : ∀ s, set_to_list s ≡ₚ s
}.

(** The arrangement that lists the members as they were added. *)
Definition insertion_order : SetOrder :=
  {| set_to_list := λ s, s; set_to_list_perm := λ s, reflexivity s |}.

(** The arrangement that lists them backwards. *)
Definition reverse_order : SetOrder :=
  {| set_to_list := reverse; set_to_list_perm := reverse_Permutation |}.

(** [obj[key]]: a missing key raises [KeyError]. *)
Definition getitem (obj : value) (key : string) : outcome value :=
  match obj with
  | VDict d =>
      match d !! key with
      | Some v => Return v
      | None => Raise (KeyError key)
      end
  | _ => Raise (TypeError "object is not subscriptable")
  end.

(** [obj.name] for the attributes of relational rows.  [rows] gives the
    attributes of each opaque object; values that are not objects have
    none of the attributes the interface reads. *)
Definition getattr (rows : nat → gmap string value) (obj : value) (name : string)
  : outcome value :=
  match obj with
  | VObj h =>
      match rows h !! name with
      | Some v => Return v
      | None => Raise (AttributeError name)
      end
  | _ => Raise (AttributeError name)
  end.

End Py.

Import Py.

(** ** Collaborators

    The datastore (timesketch.lib.datastores.elastic) and the relational
    models (timesketch.models) are used through the calls below. *)

(** A datastore connection. *)
Definition handle : Type := nat.

(** [SQLEvent.Comment(comment=..., user=...)]. *)
Record Comment : Type := {
  comment_text : string;
  comment_user : value
}.

(** Modelled from the spec: the attributes of a saved View (the class is
    timesketch.models.sketch.View): name, owning sketch, user, query
    string, query filter, query DSL and search template. *)
Record View : Type := {
  view_name : value;
  view_sketch : value;
  view_user : value;
  view_query_string : value;
  view_query_filter : value;
  view_query_dsl : value;
  view_searchtemplate : value
}.

(** [view.query_filter = f]. *)
Definition set_query_filter (view : View) (f : value) : View :=
  {| view_name := view_name view;
     view_sketch := view_sketch view;
     view_user := view_user view;
     view_query_string := view_query_string view;
     view_query_filter := f;
     view_query_dsl := view_query_dsl view;
     view_searchtemplate := view_searchtemplate view |}.

(** What is handed to [db_session.add]. *)
Inductive db_object : Type :=
  | ObjEvent (db_event : value)
  | ObjView (view : View).

Inductive call : Type :=
  (* self.datastore.import_event(index_name, event_type, event_id=, event=) *)
  | import_event (ds : handle) (index_name event_type event_id event : value)
  (* self.datastore.set_label(index_name, event_id, event_type, sketch_id,
     user_id, label, toggle=, single_update=) *)
  | set_label (ds : handle) (index_name event_id event_type sketch_id : value)
      (user_id : Z) (label : string) (toggle single_update : bool)
  (* self.datastore.flush_queued_events() *)
  | flush_queued_events (ds : handle)
  (* self.datastore.client.indices.refresh(index=) *)
  | indices_refresh (ds : handle) (index : value)
  (* self.datastore.search_stream(query_string=, query_filter=, indices=,
     return_fields=): the stream is created ... *)
  | search_stream (ds : handle)
      (query_string query_filter indices return_fields : value)
  (* ... and each turn of the for loop asks it for the next hit *)
  | search_stream_next (ds : handle)
  (* SQLSketch.query.get(sketch_id) *)
  | SQLSketch_query_get (sketch_id : value)
  (* SearchIndex.query.filter_by(index_name=).first() *)
  | SearchIndex_query_first (index_name : value)
  (* SQLEvent.get_or_create(sketch=, searchindex=, document_id=) *)
  | SQLEvent_get_or_create (sketch searchindex document_id : value)
  (* db_event.comments.append(comment) *)
  | comments_append (db_event : value) (comment : Comment)
  (* db_session.add(obj) *)
  | db_session_add (obj : db_object)
  (* db_session.commit() *)
  | db_session_commit
  (* view.validate_filter(query_filter) *)
  | validate_filter (view : View) (query_filter : value).

(** The calls that reach the relational store. *)
Definition is_relational (c : call) : bool :=
  match c with
  | SQLSketch_query_get _ | SearchIndex_query_first _
  | SQLEvent_get_or_create _ _ _ | comments_append _ _
  | db_session_add _ | db_session_commit | validate_filter _ _ => true
  | _ => false
  end.

(** The environment answers a call, given the calls made before it. *)
Definition Env : Type := list call → call → outcome value.

(** ** Methods

    A method runs on its object [self] and on the log of calls made so
    far; it returns or raises, and leaves the object and the log behind. *)
Definition M (O A : Type) : Type := O → list call → outcome A * O * list call.

#[global] Instance M_ret {O} : MRet (M O) := λ A a self log, (Return a, self, log).
#[global] Instance M_bind {O} : MBind (M O) := λ A B f m self log,
  match m self log with
  | (Return a, self', log') => f a self' log'
  | (Raise e, self', log') => (Raise e, self', log')
  end.

Definition raise {O A} (e : exn) : M O A := λ self log, (Raise e, self, log).
Definition get_self {O} : M O O := λ self log, (Return self, self, log).
Definition lift {O A} (r : outcome A) : M O A := λ self log, (r, self, log).

(** A call to a collaborator: logged, answered by the environment. *)
Definition external {O} (env : Env) (c : call) : M O value :=
  λ self log, (env log c, self, log ++ [c]).

(** An assignment to a field of [self]. *)
Definition put_self {O} (self : O) : M O unit := λ _ log, (Return tt, self, log).

(** A constructor call made from inside a method: it runs on no object
    and shares the log. *)
Definition construct {O A} (m : M unit A) : M O A :=
  λ self log, let '(r, _, log') := m tt log in (r, self, log').

(** [try: body except KeyError as e: handler(e)]. *)
Definition try_except_KeyError {A} (body : outcome A)
    (handler : string → outcome A) : outcome A :=
  match body with
  | Raise (KeyError e) => handler e
  | r => r
  end.

(** ** class Event *)

Module Event.

Record t : Type := {
  datastore : handle;
  sketch_id : value;
  event_id : value;
  event_type : value;
  index_name : value;
  source : value
}.

Definition __init__ (event : value) (datastore : handle) (sketch_id : value)
  : outcome t :=
  try_except_KeyError
    (event_id ← Py.get event "_id" VNone;
     event_type ← Py.get event "_type" VNone;
     index_name ← Py.get event "_index" VNone;
     source ← Py.get event "_source" VNone;
     mret {| datastore := datastore; sketch_id := sketch_id;
             event_id := event_id; event_type := event_type;
             index_name := index_name; source := source |})
    (λ e, Raise (KeyError ("Malformed event: " +:+ e))).

Section Methods.
Context (env : Env) (ord : SetOrder).

Definition _update (event : value) : M t unit :=
  self ← get_self;
  _ ← external env (import_event (datastore self) (index_name self)
                      (event_type self) (event_id self) event);
  mret tt.

Definition add_attributes (attributes : value) : M t unit :=
  _update attributes.

Definition add_label (label : string) (toggle : bool) : M t unit :=
  self ← get_self;
  if negb (truthy (sketch_id self)) then
    raise (RuntimeError "No sketch_id provided.")
  else
    let user_id := 0%Z in
    updated_event ← external env
      (set_label (datastore self) (index_name self) (event_id self)
         (event_type self) (sketch_id self) user_id label toggle false);
    _update updated_event.

Definition add_tags (tags : value) : M t unit :=
  self ← get_self;
  existing_tags ← lift (Py.get (source self) "tag" (VList []));
  tag_set ← lift (set_union [] [existing_tags; tags]);
  let new_tags := VList (unhash <$> set_to_list ord tag_set) in
  let updated_event_attribute := VDict {[ "tag" := new_tags ]} in
  _update updated_event_attribute.

Definition add_star : M t unit :=
  add_label "__ts_star" false.

Definition add_comment (comment : string) : M t unit :=
  self ← get_self;
  sketch ← external env (SQLSketch_query_get (sketch_id self));
  searchindex ← external env (SearchIndex_query_first (index_name self));
  db_event ← external env
    (SQLEvent_get_or_create sketch searchindex (event_id self));
  let comment := {| comment_text := comment; comment_user := VNone |} in
  _ ← external env (comments_append db_event comment);
  _ ← external env (db_session_add (ObjEvent db_event));
  _ ← external env db_session_commit;
  add_label "__ts_comment" false.

End Methods.

End Event.

(** ** class Sketch *)

Module Sketch.

Record t : Type := {
  sql_sketch : value
}.

Section Methods.
Context (env : Env).

Definition __init__ (sketch_id : value) : M unit t :=
  sql_sketch ← external env (SQLSketch_query_get sketch_id);
  mret {| sql_sketch := sql_sketch |}.

Definition add_view (name query_string query_dsl query_filter : value)
  : M t View :=
  self ← get_self;
  let query_filter :=
    if negb (truthy query_filter) then VDict ∅ else query_filter in
  if negb (truthy query_string) || truthy query_dsl then
    raise (ValueError "query_string and query_dsl is missing.")
  else
    let view := {| view_name := name;
                   view_sketch := sql_sketch self;
                   view_user := VNone;
                   view_query_string := query_string;
                   view_query_filter := query_filter;
                   view_query_dsl := query_dsl;
                   view_searchtemplate := VNone |} in
    validated ← external env (validate_filter view query_filter);
    let view := set_query_filter view validated in
    _ ← external env (db_session_add (ObjView view));
    _ ← external env db_session_commit;
    mret view.

End Methods.

Section Indices.
Context (rows : nat → gmap string value).

(** [[t.searchindex.index_name for t in timelines]] *)
Fixpoint index_names (timelines : list value) : outcome (list value) :=
  match timelines with
  | [] => Return []
  | timeline :: rest =>
      searchindex ← getattr rows timeline "searchindex";
      index_name ← getattr rows searchindex "index_name";
      names ← index_names rest;
      mret (index_name :: names)
  end.

Definition all_indices : M t value :=
  self ← get_self;
  active_timelines ← lift (getattr rows (sql_sketch self) "active_timelines");
  timelines ← lift (Py.iter active_timelines);
  active_indices ← lift (index_names timelines);
  mret (VList active_indices).

End Indices.

End Sketch.

(** ** class BaseAnalyzer *)

Module BaseAnalyzer.

(** [sketch_id] and [index_name] are set by the concrete analyzers. *)
Record t : Type := {
  name : string;
  datastore : handle;
  sketch : option Sketch.t;
  sketch_id : value;
  index_name : value
}.

(** The generator object that [event_stream] returns.  Calling the
    method runs none of its body: the body starts at the first [next]. *)
Inductive generator : Type :=
  | Created (query_string query_filter return_fields indices : value)
  | Suspended
  | Finished.

Definition event_stream
  (query_string query_filter return_fields indices : value) : generator :=
  Created query_string query_filter return_fields indices.

(** The concrete analyzer's [run] method. *)
Class Analyzer : Type := {
  run : M t value
}.

(** [BaseAnalyzer.run] itself. *)
#[global] Instance abstract_analyzer : Analyzer | 100 := {
  run := raise NotImplementedError
}.

Section Methods.
Context (env : Env).

(** [for index in indices: self.datastore.client.indices.refresh(index=index)] *)
Fixpoint refresh_each (ds : handle) (indices : list value) : M t unit :=
  match indices with
  | [] => mret tt
  | index :: rest =>
      _ ← external env (indices_refresh ds index);
      refresh_each ds rest
  end.

(** One turn of
    [for event in event_generator: yield Event(event, ...)]:
    the next hit becomes an Event and the generator is suspended at
    the [yield]; [StopIteration] from the stream ends the loop. *)
Definition next_event : M t (option Event.t * generator) :=
  λ self log,
    match external env (search_stream_next (datastore self)) self log with
    | (Return event, self', log') =>
        (ev ← lift (Event.__init__ event (datastore self') (sketch_id self'));
         mret (Some ev, Suspended)) self' log'
    | (Raise StopIteration, self', log') => (Return (None, Finished), self', log')
    | (Raise e, self', log') => (Raise e, self', log')
    end.

(** [next(g)] on the generator of [event_stream]: the yielded Event
    ([None] once the generator is exhausted) and the generator's new
    state.  A generator that raised is finished. *)
Definition next (g : generator) : M t (option Event.t * generator) :=
  match g with
  | Created query_string query_filter return_fields indices =>
      self ← get_self;
      let query_filter :=
        if negb (truthy query_filter) then VDict ∅ else query_filter in
      let return_fields :=
        if negb (truthy return_fields) then VStr "message" else return_fields in
      let indices :=
        if negb (truthy indices) then VList [index_name self] else indices in
      items ← lift (Py.iter indices);
      _ ← refresh_each (datastore self) items;
      _ ← external env
            (search_stream (datastore self) query_string query_filter
               indices return_fields);
      next_event
  | Suspended => next_event
  | Finished => mret (None, Finished)
  end.

Definition _flush_datastore_decorator {A} (func : M t A) : M t A :=
  func_return ← func;
  self ← get_self;
  _ ← external env (flush_queued_events (datastore self));
  mret func_return.

Definition run_wrapper `{Analyzer} : M t value :=
  _flush_datastore_decorator (result ← run; mret result).

End Methods.

Section Construction.
Context (env : Env).
(** [current_app.config], the class attribute [NAME] and the constructor
    of the datastore client. *)
Context (config : value) (NAME : string)
        (ElasticsearchDataStore : value → value → outcome handle).

Definition with_name (self : t) (n : string) : t :=
  {| name := n; datastore := datastore self; sketch := sketch self;
     sketch_id := sketch_id self; index_name := index_name self |}.

Definition with_datastore (self : t) (ds : handle) : t :=
  {| name := name self; datastore := ds; sketch := sketch self;
     sketch_id := sketch_id self; index_name := index_name self |}.

Definition with_sketch (self : t) (s : option Sketch.t) : t :=
  {| name := name self; datastore := datastore self; sketch := s;
     sketch_id := sketch_id self; index_name := index_name self |}.

(** Runs on the object as the concrete analyzer prepared it (with its
    [sketch_id] and [index_name]). *)
Definition __init__ : M t unit :=
  self ← get_self;
  _ ← put_self (with_name self NAME);
  host ← lift (getitem config "ELASTIC_HOST");
  port ← lift (getitem config "ELASTIC_PORT");
  ds ← lift (ElasticsearchDataStore host port);
  self ← get_self;
  _ ← put_self (with_datastore self ds);
  self ← get_self;
  _ ← put_self (with_sketch self None);
  self ← get_self;
  if truthy (sketch_id self) then
    s ← construct (Sketch.__init__ env (sketch_id self));
    self ← get_self;
    put_self (with_sketch self (Some s))
  else mret tt.

End Construction.

Definition get_kwargs : value := VNone.

End BaseAnalyzer.

(** ** Environments and objects used in the examples *)

Module Scenarios.

(** How many hits the stream has handed out so far. *)
Definition hits_served (log : list call) : nat :=
  length (List.filter
            (λ c, match c with search_stream_next _ => true | _ => false end) log).

(** Every collaborator answers; the stream serves [hits] in order. *)
Definition serving (hits : list value) : Env := λ log c,
  match c with
  | SQLSketch_query_get _ => Return (VObj 1)
  | SearchIndex_query_first _ => Return (VObj 2)
  | SQLEvent_get_or_create _ _ _ => Return (VObj 3)
  | set_label _ _ _ _ _ _ label _ _ =>
      Return (VDict {[ "timesketch_label" := VList [VStr label] ]})
  | validate_filter _ f => Return f
  | search_stream_next _ =>
      match hits !! hits_served log with
      | Some hit => Return hit
      | None => Raise StopIteration
      end
  | _ => Return VNone
  end.

(** As [serving], but the datastore is unreachable for label updates. *)
Definition label_failing : Env := λ log c,
  match c with
  | set_label _ _ _ _ _ _ _ _ _ => Raise (ExternalError "datastore unreachable")
  | _ => serving [] log c
  end.

(** As [serving], but flushing the bulk queue fails. *)
Definition flush_failing : Env := λ log c,
  match c with
  | flush_queued_events _ => Raise (ExternalError "bulk flush failed")
  | _ => serving [] log c
  end.

(** As [serving], but the filter validator fills in a default size. *)
Definition normalizing : Env := λ log c,
  match c with
  | validate_filter _ (VDict d) => Return (VDict (<[ "size" := VInt 40 ]> d))
  | _ => serving [] log c
  end.

(** As [serving], but refreshing the index named [bad] fails. *)
Definition refresh_failing (bad : string) : Env := λ log c,
  match c with
  | indices_refresh _ (VStr i) =>
      if String.eqb i bad then Raise (ExternalError "index missing") else Return VNone
  | _ => serving [] log c
  end.

Definition hit (id : string) (tags : list string) : value :=
  VDict (<[ "_id" := VStr id ]> (<[ "_type" := VStr "plaso_event" ]>
        (<[ "_index" := VStr "idx1" ]>
        {[ "_source" := VDict {[ "tag" := VList (VStr <$> tags) ]} ]}))).

(** A hit that lacks [_source]. *)
Definition hit_without_source : value :=
  VDict (<[ "_id" := VStr "ev1" ]> (<[ "_type" := VStr "plaso_event" ]>
        {[ "_index" := VStr "idx1" ]})).

Definition event (sketch_id : value) (tags : list string) : Event.t :=
  {| Event.datastore := 7; Event.sketch_id := sketch_id;
     Event.event_id := VStr "ev1"; Event.event_type := VStr "plaso_event";
     Event.index_name := VStr "idx1";
     Event.source := VDict {[ "tag" := VList (VStr <$> tags) ]} |}.

Definition sketch : Sketch.t := {| Sketch.sql_sketch := VObj 1 |}.

Definition analyzer : BaseAnalyzer.t :=
  {| BaseAnalyzer.name := "name"; BaseAnalyzer.datastore := 7;
     BaseAnalyzer.sketch := Some sketch;
     BaseAnalyzer.sketch_id := VInt 1;
     BaseAnalyzer.index_name := VStr "idx1" |}.

(** Inside [run], a method of a streamed Event is called on that
    Event; the analyzer itself is left as it was. *)
Definition on_event {A} (ev : Event.t) (m : M Event.t A) : M BaseAnalyzer.t A :=
  λ self log, let '(r, _, log') := m ev log in (r, self, log').

(** An analyzer that stars the first event of its index and reports. *)
Definition starring_run (env : Env) : M BaseAnalyzer.t value :=
  r ← BaseAnalyzer.next env (BaseAnalyzer.event_stream (VStr "*") VNone VNone VNone);
  match r.1 with
  | Some ev => _ ← on_event ev (Event.add_star env); mret (VStr "starred")
  | None => mret (VStr "nothing to star")
  end.

Definition starring (env : Env) : BaseAnalyzer.Analyzer :=
  {| BaseAnalyzer.run := starring_run env |}.

(** [list(g)]: the generator is advanced until it is exhausted.  [None]
    when [fuel] turns were not enough. *)
Fixpoint collect (env : Env) (fuel : nat) (g : BaseAnalyzer.generator)
  : M BaseAnalyzer.t (option (list Event.t)) :=
  match fuel with
  | 0 => mret None
  | S fuel' =>
      r ← BaseAnalyzer.next env g;
      match r.1 with
      | None => mret (Some [])
      | Some ev =>
          rest ← collect env fuel' r.2;
          mret (cons ev <$> rest)
      end
  end.

(** As [serving], but the filter validator rejects every filter. *)
Definition validator_rejecting : Env := λ log c,
  match c with
  | validate_filter _ _ => Raise (ExternalError "bad filter")
  | _ => serving [] log c
  end.

(** As [serving], but no sketch has the requested id. *)
Definition sketch_missing : Env := λ log c,
  match c with
  | SQLSketch_query_get _ => Return VNone
  | _ => serving [] log c
  end.

(** Sketch 1 with two active timelines, both over the search index 12
    named [idx1]. *)
Definition two_timelines (h : nat) : gmap string value :=
  match h with
  | 1 => {[ "active_timelines" := VList [VObj 10; VObj 11] ]}
  | 10 | 11 => {[ "searchindex" := VObj 12 ]}
  | 12 => {[ "index_name" := VStr "idx1" ]}
  | _ => ∅
  end.

Definition app_config : value :=
  VDict (<[ "ELASTIC_HOST" := VStr "127.0.0.1" ]> {[ "ELASTIC_PORT" := VInt 9200 ]}).

(** Every host and port gives connection 7. *)
Definition connect (host port : value) : outcome handle := Return 7.

(** The object a concrete analyzer hands to [BaseAnalyzer.__init__]. *)
Definition prepared (sketch_id : value) : BaseAnalyzer.t :=
  {| BaseAnalyzer.name := ""; BaseAnalyzer.datastore := 0;
     BaseAnalyzer.sketch := None;
     BaseAnalyzer.sketch_id := sketch_id;
     BaseAnalyzer.index_name := VStr "idx1" |}.

End Scenarios.

(** The relational store answers every call made to it. *)
Definition relational_answers (env : Env) : Prop :=
  ∀ log c, is_relational c = true → ∃ v, env log c = Return v.

(** The calls an Event method may make on behalf of the Event [self]:
    updates and label changes of its own document, through its own
    datastore, and the relational calls of [add_comment] for its own
    sketch, index and document. *)
Definition own_call (self : Event.t) (c : call) : Prop :=
  match c with
  | import_event ds index_name event_type event_id _ =>
      ds = Event.datastore self ∧ index_name = Event.index_name self ∧
      event_type = Event.event_type self ∧ event_id = Event.event_id self
  | set_label ds index_name event_id event_type sketch_id user_id _ _ single_update =>
      ds = Event.datastore self ∧ index_name = Event.index_name self ∧
      event_id = Event.event_id self ∧ event_type = Event.event_type self ∧
      sketch_id = Event.sketch_id self ∧ user_id = 0%Z ∧ single_update = false
  | SQLSketch_query_get sketch_id => sketch_id = Event.sketch_id self
  | SearchIndex_query_first index_name => index_name = Event.index_name self
  | SQLEvent_get_or_create _ _ document_id => document_id = Event.event_id self
  | comments_append _ comment => comment_user comment = VNone
  | db_session_add (ObjEvent _) => True
  | db_session_commit => True
  | _ => False
  end.

(** A method that, run on [self], leaves it unchanged and only makes
    calls of its own. *)
Definition stays_on_document {A} (self : Event.t) (m : M Event.t A) : Prop :=
  ∀ log, ∃ tail,
    (m self log).2 = log ++ tail ∧ Forall (own_call self) tail ∧
    (m self log).1.2 = self.

(** A stream that serves the hits [hits] in order and then stops. *)
Definition stream_serves (env : Env) (ds : handle) (hits : list value) : Prop :=
  ∀ log,
    env log (search_stream_next ds) =
      match hits !! Scenarios.hits_served log with
      | Some hit => Return hit
      | None => Raise StopIteration
      end.

(** The Event that [event_stream] builds from the hit [d]. *)
Definition event_of_hit (self : BaseAnalyzer.t) (d : gmap string value) : Event.t :=
  {| Event.datastore := BaseAnalyzer.datastore self;
     Event.sketch_id := BaseAnalyzer.sketch_id self;
     Event.event_id := default VNone (d !! "_id");
     Event.event_type := default VNone (d !! "_type");
     Event.index_name := default VNone (d !! "_index");
     Event.source := default VNone (d !! "_source") |}.

(** ** Properties *)

Import Scenarios.

(** Unfolds the plumbing of [M], leaving the calls and the case analysis
    on their answers. *)
Ltac unfold_M :=
  unfold mbind, M_bind, mret, M_ret, get_self, raise, lift, external in *.

Ltac step_M := unfold_M; simpl in *.

(** *** The flush-on-completion wrapper *)

Section RunWrapper.
Context (env : Env) (analyzer_impl : BaseAnalyzer.Analyzer).

(** C1: if [run()] returns normally with value [v], [run_wrapper()]
    makes exactly one call after it, [flush_queued_events] on the
    analyzer's datastore, and its result is [v] unchanged (the only
    other result is an exception raised by the flush call itself). *)
Theorem run_wrapper_flushes_once_after_run self log v self1 log1 :
  BaseAnalyzer.run self log = (Return v, self1, log1) →
  let flush := flush_queued_events (BaseAnalyzer.datastore self1) in
  BaseAnalyzer.run_wrapper env self log =
    (match env log1 flush with
     | Return _ => Return v
     | Raise e => Raise e
     end, self1, log1 ++ [flush]).
Proof.
  intros Hrun flush.
  unfold BaseAnalyzer.run_wrapper, BaseAnalyzer._flush_datastore_decorator.
  step_M. rewrite Hrun. subst flush. by destruct (env log1 _).
Qed.

(** C2: if [run()] raises, [run_wrapper()] makes no further call (in
    particular no [flush_queued_events]) and raises the same exception. *)
Theorem run_wrapper_raise_skips_flush self log e self1 log1 :
  BaseAnalyzer.run self log = (Raise e, self1, log1) →
  BaseAnalyzer.run_wrapper env self log = (Raise e, self1, log1).
Proof.
  intros Hrun.
  unfold BaseAnalyzer.run_wrapper, BaseAnalyzer._flush_datastore_decorator.
  step_M. by rewrite Hrun.
Qed.

End RunWrapper.

(** The starring analyzer, run through the wrapper: the flush is the last
    call and the report comes back. *)
Lemma run_wrapper_flushes_once_after_run_witness :
  BaseAnalyzer.run_wrapper (H := starring (serving [hit "ev1" ["a"]]))
    (serving [hit "ev1" ["a"]]) analyzer [] =
  (Return (VStr "starred"), analyzer,
   [indices_refresh 7 (VStr "idx1");
    search_stream 7 (VStr "*") (VDict ∅) (VList [VStr "idx1"]) (VStr "message");
    search_stream_next 7;
    set_label 7 (VStr "idx1") (VStr "ev1") (VStr "plaso_event") (VInt 1) 0
      "__ts_star" false false;
    import_event 7 (VStr "idx1") (VStr "plaso_event") (VStr "ev1")
      (VDict {[ "timesketch_label" := VList [VStr "__ts_star"] ]})]
   ++ [flush_queued_events 7]).
Proof.
  apply (run_wrapper_flushes_once_after_run (serving [hit "ev1" ["a"]])
           (starring (serving [hit "ev1" ["a"]])) analyzer [] (VStr "starred")).
  vm_compute. reflexivity.
Defined.

(** The abstract base class: [run()] raises [NotImplementedError], and
    the wrapper passes it on without touching the datastore. *)
Lemma run_wrapper_raise_skips_flush_witness :
  BaseAnalyzer.run_wrapper (H := BaseAnalyzer.abstract_analyzer)
    (serving []) analyzer [] = (Raise NotImplementedError, analyzer, []).
Proof.
  apply (run_wrapper_raise_skips_flush (serving [])
           BaseAnalyzer.abstract_analyzer analyzer [] NotImplementedError).
  reflexivity.
Defined.

(** When the flush itself fails, the wrapper has still called it once,
    after [run()], and its exception is what comes out. *)
Example run_wrapper_flush_failure :
  BaseAnalyzer.run_wrapper (H := starring flush_failing) flush_failing analyzer [] =
  (Raise (ExternalError "bulk flush failed"), analyzer,
   [indices_refresh 7 (VStr "idx1");
    search_stream 7 (VStr "*") (VDict ∅) (VList [VStr "idx1"]) (VStr "message");
    search_stream_next 7;
    flush_queued_events 7]).
Proof. vm_compute. reflexivity. Qed.

(** *** Event construction *)

(** On a dict, [get] returns: the [except KeyError] clause of
    [Event.__init__] is never entered, and a missing key leaves [None] in
    the field. *)
Lemma Event_init_dict (d : gmap string value) ds sid :
  Event.__init__ (VDict d) ds sid =
  Return {| Event.datastore := ds; Event.sketch_id := sid;
            Event.event_id := default VNone (d !! "_id");
            Event.event_type := default VNone (d !! "_type");
            Event.index_name := default VNone (d !! "_index");
            Event.source := default VNone (d !! "_source") |}.
Proof. reflexivity. Qed.

(** C3: construction from a hit without [_source] is expected to raise an
    error naming [_source]; the constructor returns an Event whose
    [source] is [None] instead. *)
Theorem Event_init_missing_source_returns :
  Event.__init__ hit_without_source 7 (VInt 1) =
  Return {| Event.datastore := 7; Event.sketch_id := VInt 1;
            Event.event_id := VStr "ev1";
            Event.event_type := VStr "plaso_event";
            Event.index_name := VStr "idx1";
            Event.source := VNone |}.
Proof. vm_compute. reflexivity. Qed.

(** *** Labels, stars and comments *)

Section EventMethods.
Context (env : Env).

Lemma update_run event self log :
  let c := import_event (Event.datastore self) (Event.index_name self)
             (Event.event_type self) (Event.event_id self) event in
  Event._update env event self log =
    (match env log c with
     | Return _ => Return tt
     | Raise e => Raise e
     end, self, log ++ [c]).
Proof. unfold Event._update. step_M. by destruct (env log _). Qed.

(** The guard of [add_label]: a false [sketch_id] raises before any call. *)
Lemma add_label_guard label toggle self log :
  truthy (Event.sketch_id self) = false →
  Event.add_label env label toggle self log =
    (Raise (RuntimeError "No sketch_id provided."), self, log).
Proof. intros Hf. unfold Event.add_label. step_M. by rewrite Hf. Qed.

(** Past the guard, [add_label] asks [set_label] for the updated event
    and enqueues it. *)
Lemma add_label_run label toggle self log :
  truthy (Event.sketch_id self) = true →
  let c := set_label (Event.datastore self) (Event.index_name self)
             (Event.event_id self) (Event.event_type self)
             (Event.sketch_id self) 0 label toggle false in
  Event.add_label env label toggle self log =
    match env log c with
    | Return updated_event => Event._update env updated_event self (log ++ [c])
    | Raise e => (Raise e, self, log ++ [c])
    end.
Proof.
  intros Ht c. unfold Event.add_label. step_M. rewrite Ht. simpl.
  subst c. by destruct (env log _).
Qed.

(** [add_label] leaves the Event as it was and only ever calls the
    datastore. *)
Lemma add_label_frame label toggle self log :
  ∃ tail,
    (Event.add_label env label toggle self log).1.2 = self ∧
    (Event.add_label env label toggle self log).2 = log ++ tail ∧
    Forall (λ c, is_relational c = false) tail.
Proof.
  destruct (truthy (Event.sketch_id self)) eqn:Ht.
  - rewrite add_label_run by done.
    destruct (env log _) as [u|e]; simpl.
    + rewrite update_run. simpl. eexists [_; _].
      rewrite <- app_assoc. repeat split; auto.
    + eexists [_]. repeat split; auto.
  - rewrite add_label_guard by done. exists []. simpl.
    by rewrite app_nil_r.
Qed.

(** C10: with [sketch_id] equal to the integer 0, [add_label] and
    [add_star] raise the same [RuntimeError], before any call, as they
    do when [sketch_id] is [None]. *)
Theorem add_label_sketch_id_zero ds eid ety idx src label toggle log :
  let zero := {| Event.datastore := ds; Event.sketch_id := VInt 0;
                 Event.event_id := eid; Event.event_type := ety;
                 Event.index_name := idx; Event.source := src |} in
  let unset := {| Event.datastore := ds; Event.sketch_id := VNone;
                  Event.event_id := eid; Event.event_type := ety;
                  Event.index_name := idx; Event.source := src |} in
  let error := RuntimeError "No sketch_id provided." in
  Event.add_label env label toggle zero log = (Raise error, zero, log) ∧
  Event.add_star env zero log = (Raise error, zero, log) ∧
  Event.add_label env label toggle unset log = (Raise error, unset, log) ∧
  Event.add_star env unset log = (Raise error, unset, log).
Proof.
  intros zero unset error. unfold Event.add_star.
  repeat split; by apply add_label_guard.
Qed.

(** When the relational store answers, [add_comment] amounts to six
    relational calls, the last of them the commit, followed by
    [add_label "__ts_comment"]. *)
Lemma add_comment_run comment self log :
  relational_answers env →
  ∃ sketch searchindex db_event,
    let c1 := SQLSketch_query_get (Event.sketch_id self) in
    let c2 := SearchIndex_query_first (Event.index_name self) in
    let c3 := SQLEvent_get_or_create sketch searchindex (Event.event_id self) in
    env log c1 = Return sketch ∧
    env (log ++ [c1]) c2 = Return searchindex ∧
    env (log ++ [c1; c2]) c3 = Return db_event ∧
    Event.add_comment env comment self log =
      Event.add_label env "__ts_comment" false self
        (log ++ [c1; c2; c3;
                 comments_append db_event
                   {| comment_text := comment; comment_user := VNone |};
                 db_session_add (ObjEvent db_event);
                 db_session_commit]).
Proof.
  intros Hrel.
  set (c1 := SQLSketch_query_get (Event.sketch_id self)).
  set (c2 := SearchIndex_query_first (Event.index_name self)).
  destruct (Hrel log c1 eq_refl) as [sk Hsk].
  destruct (Hrel (log ++ [c1]) c2 eq_refl) as [si Hsi].
  set (c3 := SQLEvent_get_or_create sk si (Event.event_id self)).
  destruct (Hrel ((log ++ [c1]) ++ [c2]) c3 eq_refl) as [dbe Hdbe].
  set (c4 := comments_append dbe {| comment_text := comment; comment_user := VNone |}).
  destruct (Hrel (((log ++ [c1]) ++ [c2]) ++ [c3]) c4 eq_refl) as [v4 H4].
  destruct (Hrel ((((log ++ [c1]) ++ [c2]) ++ [c3]) ++ [c4])
              (db_session_add (ObjEvent dbe)) eq_refl) as [v5 H5].
  destruct (Hrel (((((log ++ [c1]) ++ [c2]) ++ [c3]) ++ [c4]) ++
                    [db_session_add (ObjEvent dbe)])
              db_session_commit eq_refl) as [v6 H6].
  exists sk, si, dbe. cbv zeta. fold c1 c2 c3 c4.
  split; [done|]. split; [done|].
  split; [by rewrite <- app_assoc in Hdbe|].
  unfold Event.add_comment. unfold_M. cbv beta iota zeta.
  fold c1. rewrite Hsk. cbv beta iota.
  fold c2. rewrite Hsi. cbv beta iota.
  fold c3. rewrite Hdbe. cbv beta iota.
  fold c4. rewrite H4. cbv beta iota.
  rewrite H5. cbv beta iota. rewrite H6. cbv beta iota.
  f_equal. by rewrite <- !app_assoc.
Qed.

(** Without a usable [sketch_id], the guard is only reached through
    [add_label], after the commit. *)
Lemma add_comment_guard_after_commit comment self log :
  relational_answers env →
  truthy (Event.sketch_id self) = false →
  ∃ sketch searchindex db_event,
    Event.add_comment env comment self log =
      (Raise (RuntimeError "No sketch_id provided."), self,
       log ++ [SQLSketch_query_get (Event.sketch_id self);
               SearchIndex_query_first (Event.index_name self);
               SQLEvent_get_or_create sketch searchindex (Event.event_id self);
               comments_append db_event
                 {| comment_text := comment; comment_user := VNone |};
               db_session_add (ObjEvent db_event);
               db_session_commit]).
Proof.
  intros Hrel Hf.
  destruct (add_comment_run comment self log Hrel) as (sk & si & dbe & _ & _ & _ & Hrun).
  exists sk, si, dbe. rewrite Hrun. by apply add_label_guard.
Qed.

(** C7: when the relational store answers, [add_comment c] looks up the
    sketch and the search index, gets or creates the relational Event,
    appends one Comment with no author, adds and commits; only then does
    it assert the label: with a true [sketch_id] it asks [set_label] for
    ["__ts_comment"] (no toggle) and enqueues, with [import_event] for
    the same document, the event that [set_label] returned.  If
    [set_label] raises, the exception comes out after the commit with
    nothing enqueued; with a false [sketch_id] the guard of [add_label]
    raises after the commit.  In every case the log keeps the committed
    comment and no relational call follows the commit. *)
Theorem add_comment_commits_then_labels comment self log :
  relational_answers env →
  ∃ sketch searchindex db_event tail,
    let c1 := SQLSketch_query_get (Event.sketch_id self) in
    let c2 := SearchIndex_query_first (Event.index_name self) in
    let c3 := SQLEvent_get_or_create sketch searchindex (Event.event_id self) in
    let relational :=
      [c1; c2; c3;
       comments_append db_event
         {| comment_text := comment; comment_user := VNone |};
       db_session_add (ObjEvent db_event);
       db_session_commit] in
    let committed := log ++ relational in
    let ask :=
      set_label (Event.datastore self) (Event.index_name self)
        (Event.event_id self) (Event.event_type self)
        (Event.sketch_id self) 0 "__ts_comment" false false in
    env log c1 = Return sketch ∧
    env (log ++ [c1]) c2 = Return searchindex ∧
    env (log ++ [c1; c2]) c3 = Return db_event ∧
    Event.add_comment env comment self log =
      Event.add_label env "__ts_comment" false self committed ∧
    (Event.add_comment env comment self log).1.2 = self ∧
    (Event.add_comment env comment self log).2 = log ++ relational ++ tail ∧
    Forall (λ c, is_relational c = false) tail ∧
    (truthy (Event.sketch_id self) = true →
     match env committed ask with
     | Raise e =>
         tail = [ask] ∧
         Event.add_comment env comment self log =
           (Raise e, self, committed ++ [ask])
     | Return updated_event =>
         let enqueue :=
           import_event (Event.datastore self) (Event.index_name self)
             (Event.event_type self) (Event.event_id self) updated_event in
         tail = [ask; enqueue] ∧
         Event.add_comment env comment self log =
           (match env (committed ++ [ask]) enqueue with
            | Return _ => Return tt
            | Raise e => Raise e
            end, self, committed ++ [ask; enqueue])
     end) ∧
    (truthy (Event.sketch_id self) = false →
     tail = [] ∧
     Event.add_comment env comment self log =
       (Raise (RuntimeError "No sketch_id provided."), self, committed)).
Proof.
  intros Hrel.
  destruct (add_comment_run comment self log Hrel)
    as (sk & si & dbe & Hsk & Hsi & Hdbe & Hrun).
  cbv zeta in Hsk, Hsi, Hdbe, Hrun.
  match type of Hrun with _ = Event.add_label _ _ _ _ ?l => set (committed := l) in * end.
  set (ask := set_label (Event.datastore self) (Event.index_name self)
                (Event.event_id self) (Event.event_type self)
                (Event.sketch_id self) 0 "__ts_comment" false false).
  assert (Hlabel :
    ∃ tail,
      (Event.add_label env "__ts_comment" false self committed).1.2 = self ∧
      (Event.add_label env "__ts_comment" false self committed).2 =
        committed ++ tail ∧
      Forall (λ c, is_relational c = false) tail ∧
      (truthy (Event.sketch_id self) = true →
       match env committed ask with
       | Raise e =>
           tail = [ask] ∧
           Event.add_label env "__ts_comment" false self committed =
             (Raise e, self, committed ++ [ask])
       | Return updated_event =>
           let enqueue :=
             import_event (Event.datastore self) (Event.index_name self)
               (Event.event_type self) (Event.event_id self) updated_event in
           tail = [ask; enqueue] ∧
           Event.add_label env "__ts_comment" false self committed =
             (match env (committed ++ [ask]) enqueue with
              | Return _ => Return tt
              | Raise e => Raise e
              end, self, committed ++ [ask; enqueue])
       end) ∧
      (truthy (Event.sketch_id self) = false →
       tail = [] ∧
       Event.add_label env "__ts_comment" false self committed =
         (Raise (RuntimeError "No sketch_id provided."), self, committed))).
  { destruct (truthy (Event.sketch_id self)) eqn:Ht.
    - rewrite add_label_run by done. cbv zeta. fold ask.
      destruct (env committed ask) as [u|e].
      + rewrite update_run. cbv zeta. rewrite <- app_assoc. simpl.
        eexists [ask; _]. split; [done|]. split; [done|].
        split; [by repeat constructor|]. split; [|intros [=]].
        intros _. split; reflexivity.
      + exists [ask]. split; [done|]. split; [done|].
        split; [by repeat constructor|]. split; [|intros [=]].
        intros _. split; reflexivity.
    - rewrite add_label_guard by done.
      exists []. split; [done|]. split; [by rewrite app_nil_r|].
      split; [done|]. split; [intros [=]|]. intros _. split; reflexivity. }
  destruct Hlabel as (tail & Hself & Hlog & Htail & Htrue & Hfalse).
  exists sk, si, dbe, tail. cbv zeta. fold committed. fold ask.
  split; [done|]. split; [done|]. split; [done|].
  split; [done|]. rewrite Hrun.
  split; [done|]. split; [subst committed; by rewrite Hlog, <- app_assoc|].
  split; [done|]. split; [exact Htrue|exact Hfalse].
Qed.

End EventMethods.

Lemma serving_relational_answers hits : relational_answers (serving hits).
Proof.
  intros log c Hc. destruct c; try discriminate Hc; by eexists.
Qed.

Lemma label_failing_relational_answers : relational_answers label_failing.
Proof.
  intros log c Hc. destruct c; try discriminate Hc; by eexists.
Defined.

(** A comment on an Event of sketch 1, every collaborator answering:
    after the commit the label is asked for and the answer enqueued. *)
Lemma add_comment_commits_then_labels_witness :
  ∃ sketch searchindex db_event tail,
    let self := event (VInt 1) ["x"] in
    let c1 := SQLSketch_query_get (VInt 1) in
    let c2 := SearchIndex_query_first (VStr "idx1") in
    let c3 := SQLEvent_get_or_create sketch searchindex (VStr "ev1") in
    let relational :=
      [c1; c2; c3;
       comments_append db_event {| comment_text := "odd"; comment_user := VNone |};
       db_session_add (ObjEvent db_event);
       db_session_commit] in
    let committed := [] ++ relational in
    let ask :=
      set_label 7 (VStr "idx1") (VStr "ev1") (VStr "plaso_event") (VInt 1) 0
        "__ts_comment" false false in
    let enqueue :=
      import_event 7 (VStr "idx1") (VStr "plaso_event") (VStr "ev1")
        (VDict {[ "timesketch_label" := VList [VStr "__ts_comment"] ]}) in
    serving [] [] c1 = Return sketch ∧
    serving [] ([] ++ [c1]) c2 = Return searchindex ∧
    serving [] ([] ++ [c1; c2]) c3 = Return db_event ∧
    Event.add_comment (serving []) "odd" self [] =
      Event.add_label (serving []) "__ts_comment" false self committed ∧
    (Event.add_comment (serving []) "odd" self []).1.2 = self ∧
    (Event.add_comment (serving []) "odd" self []).2 = [] ++ relational ++ tail ∧
    Forall (λ c, is_relational c = false) tail ∧
    (truthy (VInt 1) = true →
     tail = [ask; enqueue] ∧
     Event.add_comment (serving []) "odd" self [] =
       (Return tt, self, committed ++ [ask; enqueue])) ∧
    (truthy (VInt 1) = false →
     tail = [] ∧
     Event.add_comment (serving []) "odd" self [] =
       (Raise (RuntimeError "No sketch_id provided."), self, committed)).
Proof.
  exact (add_comment_commits_then_labels (serving []) "odd"
           (event (VInt 1) ["x"]) [] (serving_relational_answers [])).
Defined.

(** The run of the same comment, evaluated: the label update is the last
    call. *)
Example add_comment_labelled :
  Event.add_comment (serving []) "odd" (event (VInt 1) ["x"]) [] =
  (Return tt, event (VInt 1) ["x"],
   [SQLSketch_query_get (VInt 1);
    SearchIndex_query_first (VStr "idx1");
    SQLEvent_get_or_create (VObj 1) (VObj 2) (VStr "ev1");
    comments_append (VObj 3) {| comment_text := "odd"; comment_user := VNone |};
    db_session_add (ObjEvent (VObj 3));
    db_session_commit;
    set_label 7 (VStr "idx1") (VStr "ev1") (VStr "plaso_event") (VInt 1) 0
      "__ts_comment" false false;
    import_event 7 (VStr "idx1") (VStr "plaso_event") (VStr "ev1")
      (VDict {[ "timesketch_label" := VList [VStr "__ts_comment"] ]})]).
Proof. vm_compute. reflexivity. Qed.

(** When the label update fails after the commit, the exception comes
    out and the log still ends with the committed comment and the failed
    call. *)
Example add_comment_label_failure :
  Event.add_comment label_failing "odd" (event (VInt 1) ["x"]) [] =
  (Raise (ExternalError "datastore unreachable"), event (VInt 1) ["x"],
   [SQLSketch_query_get (VInt 1);
    SearchIndex_query_first (VStr "idx1");
    SQLEvent_get_or_create (VObj 1) (VObj 2) (VStr "ev1");
    comments_append (VObj 3) {| comment_text := "odd"; comment_user := VNone |};
    db_session_add (ObjEvent (VObj 3));
    db_session_commit;
    set_label 7 (VStr "idx1") (VStr "ev1") (VStr "plaso_event") (VInt 1) 0
      "__ts_comment" false false]).
Proof. vm_compute. reflexivity. Qed.

(** C6: without a [sketch_id], [add_label] raises before any call (see
    [add_label_guard]); [add_comment] has no guard of its own and reaches
    the one in [add_label] only after the comment has been appended and
    committed. *)
Theorem add_comment_unbound_commits_before_raising :
  Event.add_comment (serving []) "note" (event VNone ["x"]) [] =
  (Raise (RuntimeError "No sketch_id provided."), event VNone ["x"],
   [SQLSketch_query_get VNone;
    SearchIndex_query_first (VStr "idx1");
    SQLEvent_get_or_create (VObj 1) (VObj 2) (VStr "ev1");
    comments_append (VObj 3) {| comment_text := "note"; comment_user := VNone |};
    db_session_add (ObjEvent (VObj 3));
    db_session_commit]).
Proof. vm_compute. reflexivity. Qed.

(** *** Tags *)

Section Sets.

Lemma set_add_elem s h x : x ∈ set_add s h ↔ x ∈ s ∨ x = h.
Proof.
  unfold set_add. case_decide.
  - split; [by left|]. intros [?| ->]; done.
  - rewrite elem_of_app, list_elem_of_singleton. done.
Qed.

Lemma set_add_NoDup s h : NoDup s → NoDup (set_add s h).
Proof.
  intros Hs. unfold set_add. case_decide; [done|].
  apply NoDup_app. split; [done|]. split.
  - intros x Hx ->%list_elem_of_singleton. done.
  - apply NoDup_singleton.
Qed.

Lemma set_add_all_elem hs : ∀ s x, x ∈ foldl set_add s hs ↔ x ∈ s ∨ x ∈ hs.
Proof.
  induction hs as [|h hs IH]; intros s x; simpl.
  - rewrite elem_of_nil. tauto.
  - rewrite IH, set_add_elem, elem_of_cons. tauto.
Qed.

Lemma set_add_all_NoDup hs : ∀ s, NoDup s → NoDup (foldl set_add s hs).
Proof.
  induction hs as [|h hs IH]; intros s Hs; simpl; [done|].
  by apply IH, set_add_NoDup.
Qed.

(** Updating a set from a list of strings never raises. *)
Lemma set_update_strings (T : list string) : ∀ s,
  set_update s (VStr <$> T) = Return (foldl set_add s (HStr <$> T)).
Proof. induction T as [|t T IH]; intros s; simpl; [done|]. apply IH. Qed.

Lemma set_union_strings (T0 T1 : list string) :
  set_union [] [VList (VStr <$> T0); VList (VStr <$> T1)] =
  Return (foldl set_add [] (HStr <$> (T0 ++ T1))).
Proof.
  simpl. rewrite set_update_strings. simpl.
  rewrite set_update_strings. simpl.
  by rewrite fmap_app, foldl_app.
Qed.

(** A list of hashables that are all strings is the image of a list of
    strings. *)
Lemma all_strings (hs : list hashable) :
  (∀ h, h ∈ hs → ∃ t, h = HStr t) → ∃ L : list string, hs = HStr <$> L.
Proof.
  induction hs as [|h hs IH]; intros Hall.
  - by exists [].
  - destruct (Hall h) as [t ->]; [by left|].
    destruct IH as [L ->]; [intros h' Hh'; apply Hall; by right|].
    by exists (t :: L).
Qed.

(** [list(set().union(T0, T1))] on lists of strings: some list of
    strings without repetition whose members are those of [T0] and
    those of [T1]. *)
Lemma list_of_union (ord : SetOrder) (T0 T1 : list string) :
  ∃ L : list string,
    unhash <$> set_to_list ord (foldl set_add [] (HStr <$> (T0 ++ T1))) =
      VStr <$> L ∧
    NoDup L ∧ (∀ x, x ∈ L ↔ x ∈ T0 ∨ x ∈ T1).
Proof.
  set (s := foldl set_add [] (HStr <$> (T0 ++ T1))).
  pose proof (set_to_list_perm ord s) as Hperm.
  assert (Hmem : ∀ h, h ∈ set_to_list ord s ↔ h ∈ HStr <$> (T0 ++ T1)).
  { intros h. rewrite Hperm. subst s. rewrite set_add_all_elem, elem_of_nil. tauto. }
  destruct (all_strings (set_to_list ord s)) as [L HL].
  { intros h Hh. apply Hmem, list_elem_of_fmap in Hh as (t & -> & _). by exists t. }
  exists L. split; [|split].
  - rewrite HL, <- list_fmap_compose. done.
  - apply (NoDup_fmap_1 HStr). rewrite <- HL, Hperm.
    subst s. apply set_add_all_NoDup, NoDup_nil_2.
  - intros x. rewrite <- elem_of_app.
    rewrite <- (list_elem_of_fmap_inj HStr L x).
    rewrite <- (list_elem_of_fmap_inj HStr (T0 ++ T1) x).
    rewrite <- HL. apply Hmem.
Qed.

End Sets.

Section Tags.
Context (env : Env) (ord : SetOrder).

(** [add_tags] on an Event whose snapshot has tags [T0] (none when the
    field is absent): one update whose [tag] field lists the union. *)
Lemma add_tags_run self (T0 T1 : list string) log :
  Py.get (Event.source self) "tag" (VList []) = Return (VList (VStr <$> T0)) →
  ∃ L : list string,
    NoDup L ∧ (∀ x, x ∈ L ↔ x ∈ T0 ∨ x ∈ T1) ∧
    Event.add_tags env ord (VList (VStr <$> T1)) self log =
      Event._update env (VDict {[ "tag" := VList (VStr <$> L) ]}) self log.
Proof.
  intros Hsrc. destruct (list_of_union ord T0 T1) as (L & HL & Hnd & Hmem).
  exists L. split; [done|]. split; [done|].
  unfold Event.add_tags. unfold_M. cbv beta iota zeta.
  rewrite Hsrc. cbv beta iota.
  rewrite set_union_strings. cbv beta iota. by rewrite HL.
Qed.

(** Whatever it is given and however it ends, [add_tags] leaves every
    field of the Event as it was. *)
Lemma add_tags_frame tags self log :
  (Event.add_tags env ord tags self log).1.2 = self.
Proof.
  unfold Event.add_tags, Event._update. unfold_M. cbv beta iota zeta.
  destruct (Py.get _ _ _) as [existing|e]; [|done]. cbv beta iota.
  destruct (set_union _ _) as [s|e]; [|done]. cbv beta iota.
  by destruct (env log _).
Qed.

(** C4: for an Event whose snapshot holds the tags [T0], [add_tags T1]
    makes exactly one call, an [import_event] for this document whose
    [tag] field is a list without repetition whose members are exactly
    those of [T0] and those of [T1]; nothing is read back from the
    datastore and the Event is unchanged. *)
Theorem add_tags_enqueues_union self (T0 T1 : list string) log :
  Py.get (Event.source self) "tag" (VList []) = Return (VList (VStr <$> T0)) →
  ∃ L : list string,
    NoDup L ∧ (∀ x, x ∈ L ↔ x ∈ T0 ∨ x ∈ T1) ∧
    let c := import_event (Event.datastore self) (Event.index_name self)
               (Event.event_type self) (Event.event_id self)
               (VDict {[ "tag" := VList (VStr <$> L) ]}) in
    Event.add_tags env ord (VList (VStr <$> T1)) self log =
      (match env log c with
       | Return _ => Return tt
       | Raise e => Raise e
       end, self, log ++ [c]).
Proof.
  intros Hsrc. destruct (add_tags_run self T0 T1 log Hsrc) as (L & ? & ? & Hrun).
  exists L. split; [done|]. split; [done|].
  cbv zeta. rewrite Hrun. apply update_run.
Qed.

(** C9: [add_tags] never changes the Event, so its [source] snapshot
    stays as constructed; hence on a snapshot with tags [T0],
    [add_tags T1] followed by [add_tags T2] makes two updates, and the
    [tag] field of the second has exactly the members of [T0] and of
    [T2]: an element of [T1] that is in neither is not in it. *)
Theorem add_tags_reads_original_snapshot :
  (∀ tags self log, (Event.add_tags env ord tags self log).1.2 = self) ∧
  (∀ self (T0 T1 T2 : list string) log,
     Py.get (Event.source self) "tag" (VList []) = Return (VList (VStr <$> T0)) →
     let first := Event.add_tags env ord (VList (VStr <$> T1)) self log in
     let second := Event.add_tags env ord (VList (VStr <$> T2)) first.1.2 first.2 in
     ∃ L1 L2 : list string,
       let update L := import_event (Event.datastore self) (Event.index_name self)
                         (Event.event_type self) (Event.event_id self)
                         (VDict {[ "tag" := VList (VStr <$> L) ]}) in
       second.2 = log ++ [update L1; update L2] ∧
       second.1.2 = self ∧
       NoDup L2 ∧
       (∀ x, x ∈ L2 ↔ x ∈ T0 ∨ x ∈ T2) ∧
       (∀ x, x ∈ T1 → x ∉ T0 → x ∉ T2 → x ∉ L2)).
Proof.
  split; [apply add_tags_frame|].
  intros self T0 T1 T2 log Hsrc first second.
  destruct (add_tags_run self T0 T1 log Hsrc) as (L1 & _ & _ & Hrun1).
  assert (Hfirst : first.1.2 = self ∧ ∃ c1, first.2 = log ++ [c1] ∧
            c1 = import_event (Event.datastore self) (Event.index_name self)
                   (Event.event_type self) (Event.event_id self)
                   (VDict {[ "tag" := VList (VStr <$> L1) ]})).
  { subst first. rewrite Hrun1, update_run. simpl. eauto. }
  destruct Hfirst as (Hself1 & c1 & Hlog1 & ->).
  subst second. rewrite Hself1, Hlog1.
  destruct (add_tags_run self T0 T2
              (log ++ [import_event (Event.datastore self) (Event.index_name self)
                         (Event.event_type self) (Event.event_id self)
                         (VDict {[ "tag" := VList (VStr <$> L1) ]})]) Hsrc)
    as (L2 & Hnd & Hmem & Hrun2).
  exists L1, L2. cbv zeta. rewrite Hrun2, update_run. simpl.
  split; [by rewrite <- app_assoc|]. split; [done|]. split; [done|].
  split; [done|]. intros x _ H0 H2 [?|?]%Hmem; done.
Qed.

End Tags.

(** Tags [x, y] in the snapshot, [b, x, c] added, a set that lists its
    members backwards. *)
Lemma add_tags_enqueues_union_witness :
  ∃ L : list string,
    NoDup L ∧ (∀ x, x ∈ L ↔ x ∈ ["x"; "y"] ∨ x ∈ ["b"; "x"; "c"]) ∧
    let c := import_event 7 (VStr "idx1") (VStr "plaso_event") (VStr "ev1")
               (VDict {[ "tag" := VList (VStr <$> L) ]}) in
    Event.add_tags (serving []) reverse_order
      (VList (VStr <$> ["b"; "x"; "c"])) (event VNone ["x"; "y"]) [] =
      (match serving [] [] c with
       | Return _ => Return tt
       | Raise e => Raise e
       end, event VNone ["x"; "y"], [] ++ [c]).
Proof.
  apply (add_tags_enqueues_union (serving []) reverse_order
           (event VNone ["x"; "y"]) ["x"; "y"] ["b"; "x"; "c"] []).
  vm_compute. reflexivity.
Defined.

Example add_tags_union_run :
  Event.add_tags (serving []) reverse_order
    (VList (VStr <$> ["b"; "x"; "c"])) (event VNone ["x"; "y"]) [] =
  (Return tt, event VNone ["x"; "y"],
   [import_event 7 (VStr "idx1") (VStr "plaso_event") (VStr "ev1")
      (VDict {[ "tag" := VList (VStr <$> ["c"; "b"; "y"; "x"]) ]})]).
Proof. vm_compute. reflexivity. Qed.

(** Tags [x] in the snapshot; [a] is added, then [b]. *)
Lemma add_tags_reads_original_snapshot_witness :
  let self := event VNone ["x"] in
  let first := Event.add_tags (serving []) insertion_order (VList (VStr <$> ["a"])) self [] in
  let second := Event.add_tags (serving []) insertion_order (VList (VStr <$> ["b"]))
                  first.1.2 first.2 in
  ∃ L1 L2 : list string,
    let update L := import_event 7 (VStr "idx1") (VStr "plaso_event") (VStr "ev1")
                      (VDict {[ "tag" := VList (VStr <$> L) ]}) in
    second.2 = [] ++ [update L1; update L2] ∧
    second.1.2 = self ∧
    NoDup L2 ∧
    (∀ x, x ∈ L2 ↔ x ∈ ["x"] ∨ x ∈ ["b"]) ∧
    (∀ x, x ∈ ["a"] → x ∉ ["x"] → x ∉ ["b"] → x ∉ L2).
Proof.
  apply (proj2 (add_tags_reads_original_snapshot (serving []) insertion_order)
           (event VNone ["x"]) ["x"] ["a"] ["b"] []).
  vm_compute. reflexivity.
Defined.

Example add_tags_twice_run :
  let self := event VNone ["x"] in
  let first := Event.add_tags (serving []) insertion_order (VList [VStr "a"]) self [] in
  (Event.add_tags (serving []) insertion_order (VList [VStr "b"]) first.1.2 first.2).2 =
  [import_event 7 (VStr "idx1") (VStr "plaso_event") (VStr "ev1")
     (VDict {[ "tag" := VList [VStr "x"; VStr "a"] ]});
   import_event 7 (VStr "idx1") (VStr "plaso_event") (VStr "ev1")
     (VDict {[ "tag" := VList [VStr "x"; VStr "b"] ]})].
Proof. vm_compute. reflexivity. Qed.

(** *** Saved views *)

Section Views.
Context (env : Env).

Lemma app_cons_not_self {A} (l : list A) x l' : l ++ x :: l' ≠ l.
Proof.
  intros H. rewrite <- (app_nil_r l) in H at 2.
  by apply app_inv_head in H.
Qed.

(** Past the gate, [add_view] validates the filter, stores the answer
    in the view, adds the view to the session and commits. *)
Lemma add_view_run name query_string query_dsl query_filter self log :
  truthy query_string = true → truthy query_dsl = false →
  let filter := if negb (truthy query_filter) then VDict ∅ else query_filter in
  let draft := {| view_name := name;
                  view_sketch := Sketch.sql_sketch self;
                  view_user := VNone;
                  view_query_string := query_string;
                  view_query_filter := filter;
                  view_query_dsl := query_dsl;
                  view_searchtemplate := VNone |} in
  let c1 := validate_filter draft filter in
  Sketch.add_view env name query_string query_dsl query_filter self log =
    match env log c1 with
    | Raise e => (Raise e, self, log ++ [c1])
    | Return validated =>
        let view := set_query_filter draft validated in
        let c2 := db_session_add (ObjView view) in
        match env (log ++ [c1]) c2 with
        | Raise e => (Raise e, self, log ++ [c1; c2])
        | Return _ =>
            (match env (log ++ [c1; c2]) db_session_commit with
             | Raise e => Raise e
             | Return _ => Return view
             end, self, log ++ [c1; c2; db_session_commit])
        end
    end.
Proof.
  intros Hs Hd filter draft c1. unfold Sketch.add_view. unfold_M.
  cbv beta iota zeta. rewrite Hs, Hd. simpl.
  fold filter. fold draft. fold c1.
  destruct (env log c1) as [validated|e]; [|done]. cbv beta iota.
  destruct (env (log ++ [c1]) _) as [?|e]; rewrite <- ?app_assoc; simpl; [|done].
  by destruct (env (log ++ [c1; _]) db_session_commit).
Qed.

(** C5 (amended): [add_view] raises its [ValueError], before any call,
    exactly when the query string is false (absent or empty) or the
    query DSL is true (present and not empty); and when a call without
    a filter returns a view, that view has been validated, added and
    committed, and its [query_filter] is what [validate_filter]
    answered for the empty mapping. *)
Theorem add_view_gate_and_filter name query_string query_dsl query_filter self log :
  let error := ValueError "query_string and query_dsl is missing." in
  (Sketch.add_view env name query_string query_dsl query_filter self log =
     (Raise error, self, log)
   ↔ truthy query_string = false ∨ truthy query_dsl = true) ∧
  (∀ view self' log',
     Sketch.add_view env name query_string query_dsl VNone self log =
       (Return view, self', log') →
     let draft := {| view_name := name;
                     view_sketch := Sketch.sql_sketch self;
                     view_user := VNone;
                     view_query_string := query_string;
                     view_query_filter := VDict ∅;
                     view_query_dsl := query_dsl;
                     view_searchtemplate := VNone |} in
     truthy query_string = true ∧ truthy query_dsl = false ∧
     env log (validate_filter draft (VDict ∅)) = Return (view_query_filter view) ∧
     view = set_query_filter draft (view_query_filter view) ∧
     self' = self ∧
     log' = log ++ [validate_filter draft (VDict ∅);
                    db_session_add (ObjView view);
                    db_session_commit]).
Proof.
  intros error.
  assert (Hgate : ∀ qf, truthy query_string = false ∨ truthy query_dsl = true →
            Sketch.add_view env name query_string query_dsl qf self log =
              (Raise error, self, log)).
  { intros qf Hg. unfold Sketch.add_view. unfold_M. cbv beta iota zeta.
    destruct Hg as [-> | ->]; [done|]. by rewrite orb_true_r. }
  split.
  - split; [|apply Hgate].
    intros Hraise.
    destruct (truthy query_string) eqn:Hs; [|by left].
    destruct (truthy query_dsl) eqn:Hd; [by right|].
    exfalso. rewrite add_view_run in Hraise by done. cbv zeta in Hraise.
    destruct (env log _) as [validated|e].
    + destruct (env (log ++ [_]) _) as [?|e].
      * injection Hraise as _ Hlog. by apply app_cons_not_self in Hlog.
      * injection Hraise as _ Hlog. by apply app_cons_not_self in Hlog.
    + injection Hraise as _ Hlog. by apply app_cons_not_self in Hlog.
  - intros view self' log' Hret draft.
    destruct (truthy query_string) eqn:Hs;
      [|rewrite Hgate in Hret by (by left); discriminate Hret].
    destruct (truthy query_dsl) eqn:Hd;
      [rewrite Hgate in Hret by (by right); discriminate Hret|].
    rewrite add_view_run in Hret by done. cbv zeta in Hret. simpl in Hret.
    fold draft in Hret.
    destruct (env log (validate_filter draft (VDict ∅))) as [validated|e];
      [|discriminate Hret].
    destruct (env (log ++ [_]) _) as [?|e]; [|discriminate Hret].
    destruct (env (log ++ [_; _]) db_session_commit) as [?|e];
      [|discriminate Hret].
    injection Hret as <- <- <-. done.
Qed.

End Views.

(** C5 as stated fails twice over: a validator that fills in defaults
    makes the returned view's filter non-empty, and an empty query string,
    though supplied, is rejected. *)
Lemma add_view_filter_is_validator_answer :
  ¬ (∀ (env : Env) name query_string self log view self' log',
       Sketch.add_view env name (VStr query_string) VNone VNone self log =
         (Return view, self', log') →
       view_query_filter view = VDict ∅) ∧
  ¬ (∀ (env : Env) name query_string query_dsl query_filter self log,
       (∃ e, (Sketch.add_view env name query_string query_dsl query_filter
                self log).1.1 = Raise (ValueError e))
       ↔ ¬ (query_string ≠ VNone ∧ query_dsl = VNone)).
Proof.
  split.
  - intros H.
    specialize (H normalizing (VStr "suspicious") "foo" sketch [] _ _ _ eq_refl).
    vm_compute in H. discriminate H.
  - intros H.
    destruct (H (serving []) (VStr "suspicious") (VStr "") VNone VNone sketch [])
      as [Hraise _].
    apply Hraise; [by eexists|]. split; done.
Qed.

(** A call with a query string only, against the validator that fills in
    a default size. *)
Lemma add_view_gate_and_filter_witness :
  let draft := {| view_name := VStr "suspicious"; view_sketch := VObj 1;
                  view_user := VNone; view_query_string := VStr "foo";
                  view_query_filter := VDict ∅; view_query_dsl := VNone;
                  view_searchtemplate := VNone |} in
  let view := set_query_filter draft (VDict {[ "size" := VInt 40 ]}) in
  truthy (VStr "foo") = true ∧ truthy VNone = false ∧
  normalizing [] (validate_filter draft (VDict ∅)) = Return (view_query_filter view) ∧
  view = set_query_filter draft (view_query_filter view) ∧
  sketch = sketch ∧
  [validate_filter draft (VDict ∅); db_session_add (ObjView view); db_session_commit] =
    [] ++ [validate_filter draft (VDict ∅); db_session_add (ObjView view);
           db_session_commit].
Proof.
  apply (proj2 (add_view_gate_and_filter normalizing (VStr "suspicious")
                  (VStr "foo") VNone VNone sketch [])
           (set_query_filter
              {| view_name := VStr "suspicious"; view_sketch := VObj 1;
                 view_user := VNone; view_query_string := VStr "foo";
                 view_query_filter := VDict ∅; view_query_dsl := VNone;
                 view_searchtemplate := VNone |}
              (VDict {[ "size" := VInt 40 ]}))
           sketch
           [validate_filter
              {| view_name := VStr "suspicious"; view_sketch := VObj 1;
                 view_user := VNone; view_query_string := VStr "foo";
                 view_query_filter := VDict ∅; view_query_dsl := VNone;
                 view_searchtemplate := VNone |} (VDict ∅);
            db_session_add (ObjView (set_query_filter
              {| view_name := VStr "suspicious"; view_sketch := VObj 1;
                 view_user := VNone; view_query_string := VStr "foo";
                 view_query_filter := VDict ∅; view_query_dsl := VNone;
                 view_searchtemplate := VNone |}
              (VDict {[ "size" := VInt 40 ]})));
            db_session_commit]).
  vm_compute. reflexivity.
Defined.

(** *** The event stream *)

Section EventStream.
Context (env : Env).

(** The refresh loop stops at the first refresh that raises. *)
Lemma refresh_each_run ds items : ∀ self log,
  BaseAnalyzer.refresh_each env ds items self log =
    (Return tt, self, log ++ (indices_refresh ds <$> items)) ∨
  ∃ k e, k < length items ∧
    BaseAnalyzer.refresh_each env ds items self log =
      (Raise e, self, log ++ (indices_refresh ds <$> take (S k) items)).
Proof.
  induction items as [|index rest IH]; intros self log.
  - left. simpl. unfold_M. by rewrite app_nil_r.
  - simpl. unfold_M.
    destruct (env log (indices_refresh ds index)) as [?|e] eqn:Hr.
    + destruct (IH self (log ++ [indices_refresh ds index]))
        as [Hok | (k & e & Hk & Hfail)].
      * left. rewrite Hok. by rewrite <- app_assoc.
      * right. exists (S k), e. split; [simpl; lia|].
        rewrite Hfail. by rewrite <- app_assoc.
    + right. exists 0, e. split; [simpl; lia|]. by rewrite take_0.
Qed.

(** A turn of the loop over the stream asks for one hit. *)
Lemma next_event_log self log :
  (BaseAnalyzer.next_event env self log).2 =
    log ++ [search_stream_next (BaseAnalyzer.datastore self)] ∧
  (BaseAnalyzer.next_event env self log).1.2 = self.
Proof.
  unfold BaseAnalyzer.next_event. unfold_M.
  destruct (env log _) as [event|e]; simpl.
  - by destruct (Event.__init__ _ _ _).
  - by destruct e.
Qed.

(** The first [next] on a fresh generator, step by step. *)
Lemma next_created_run query_string query_filter return_fields indices self log :
  let ds := BaseAnalyzer.datastore self in
  let effective :=
    if negb (truthy indices) then VList [BaseAnalyzer.index_name self]
    else indices in
  let search :=
    search_stream ds query_string
      (if negb (truthy query_filter) then VDict ∅ else query_filter)
      effective
      (if negb (truthy return_fields) then VStr "message" else return_fields) in
  BaseAnalyzer.next env
    (BaseAnalyzer.event_stream query_string query_filter return_fields indices)
    self log =
  match Py.iter effective with
  | Raise e => (Raise e, self, log)
  | Return items =>
      match BaseAnalyzer.refresh_each env ds items self log with
      | (Return _, self1, log1) =>
          match env log1 search with
          | Return _ => BaseAnalyzer.next_event env self1 (log1 ++ [search])
          | Raise e => (Raise e, self1, log1 ++ [search])
          end
      | (Raise e, self1, log1) => (Raise e, self1, log1)
      end
  end.
Proof.
  intros ds effective search.
  unfold BaseAnalyzer.next, BaseAnalyzer.event_stream. unfold_M.
  cbv beta iota zeta. fold ds. fold effective. fold search.
  destruct (Py.iter effective) as [items|e]; [|done]. cbv beta iota.
  destruct (BaseAnalyzer.refresh_each env ds items self log) as [[[?|e] self1] log1];
    [|done].
  by destruct (env log1 search).
Qed.

(** C8: the first [next] on the generator of an [event_stream] call,
    whatever was called before it in the run, starts by refreshing the
    effective indices (the [indices] argument, or the analyzer's own
    index when that is false) one after the other; only when every one
    of them has been refreshed is the streaming search made and a hit
    asked for.  If a refresh raises, no search is made and nothing is
    yielded.  So whenever an Event is yielded, the calls made for it are
    the refreshes of all the effective indices, the search and the
    request for the hit, in this order. *)
Theorem event_stream_refreshes_before_search
    query_string query_filter return_fields indices self log :
  let ds := BaseAnalyzer.datastore self in
  let effective :=
    if negb (truthy indices) then VList [BaseAnalyzer.index_name self]
    else indices in
  let search :=
    search_stream ds query_string
      (if negb (truthy query_filter) then VDict ∅ else query_filter)
      effective
      (if negb (truthy return_fields) then VStr "message" else return_fields) in
  let result :=
    BaseAnalyzer.next env
      (BaseAnalyzer.event_stream query_string query_filter return_fields indices)
      self log in
  match Py.iter effective with
  | Raise e => result = (Raise e, self, log)
  | Return items =>
      ((∃ rest,
          result.2 = log ++ (indices_refresh ds <$> items) ++ search :: rest ∧
          (rest = [] ∨ rest = [search_stream_next ds])) ∨
       (∃ k e, k < length items ∧
          result = (Raise e, self,
                    log ++ (indices_refresh ds <$> take (S k) items)))) ∧
      (∀ ev g, result.1.1 = Return (Some ev, g) →
         result.2 = log ++ (indices_refresh ds <$> items) ++
                      [search; search_stream_next ds])
  end.
Proof.
  intros ds effective search result.
  subst result. rewrite next_created_run. cbv zeta.
  fold ds. fold effective. fold search.
  destruct (Py.iter effective) as [items|e]; [|done].
  destruct (refresh_each_run ds items self log) as [Hok | (k & e & Hk & Hfail)].
  - rewrite Hok.
    destruct (env _ search) as [?|e].
    + pose proof (next_event_log self
                    ((log ++ (indices_refresh ds <$> items)) ++ [search]))
        as [Hlog _].
      fold ds in Hlog.
      assert (Hshape :
        (BaseAnalyzer.next_event env self
           ((log ++ (indices_refresh ds <$> items)) ++ [search])).2 =
        log ++ (indices_refresh ds <$> items) ++ [search; search_stream_next ds]).
      { rewrite Hlog. by rewrite <- !app_assoc. }
      split; [|by intros]. left. eexists. split; [exact Hshape|by right].
    + split.
      * left. exists []. split; [by rewrite <- app_assoc|by left].
      * intros ev g H. discriminate H.
  - rewrite Hfail. split.
    + right. by exists k, e.
    + intros ev g H. discriminate H.
Qed.

(** Later turns only ask the stream for the next hit. *)
Lemma next_suspended_log self log :
  (BaseAnalyzer.next env BaseAnalyzer.Suspended self log).2 =
    log ++ [search_stream_next (BaseAnalyzer.datastore self)].
Proof. apply next_event_log. Qed.

End EventStream.

(** Two streams in one run, both with the default indices: each one
    refreshes the analyzer's index before it searches. *)
Example event_stream_twice_refreshes_twice :
  let env := serving [hit "ev1" ["a"]; hit "ev2" []] in
  let first := BaseAnalyzer.next env
                 (BaseAnalyzer.event_stream (VStr "*") VNone VNone VNone) analyzer [] in
  let second := BaseAnalyzer.next env
                  (BaseAnalyzer.event_stream (VStr "tag:a") VNone VNone VNone)
                  first.1.2 first.2 in
  second.2 =
    [indices_refresh 7 (VStr "idx1");
     search_stream 7 (VStr "*") (VDict ∅) (VList [VStr "idx1"]) (VStr "message");
     search_stream_next 7;
     indices_refresh 7 (VStr "idx1");
     search_stream 7 (VStr "tag:a") (VDict ∅) (VList [VStr "idx1"]) (VStr "message");
     search_stream_next 7].
Proof. vm_compute. reflexivity. Qed.

(** A refresh that fails stops the generator before the search. *)
Example event_stream_refresh_failure :
  BaseAnalyzer.next (refresh_failing "idx2")
    (BaseAnalyzer.event_stream (VStr "*") VNone VNone
       (VList [VStr "idx1"; VStr "idx2"; VStr "idx3"])) analyzer [] =
  (Raise (ExternalError "index missing"), analyzer,
   [indices_refresh 7 (VStr "idx1"); indices_refresh 7 (VStr "idx2")]).
Proof. vm_compute. reflexivity. Qed.

(** ** Further properties of the interface *)

(** *** Event construction and the methods of an Event *)

(** X1: whatever the hit, [Event.__init__] never raises [KeyError], so
    the "Malformed event" error cannot come out of it: a dict gives an
    Event (absent keys read as [None]) and anything else fails on [get]
    with [AttributeError]. *)
Theorem Event_init_never_KeyError event ds sid :
  (∀ msg, Event.__init__ event ds sid ≠ Raise (KeyError msg)) ∧
  ((∃ d, event = VDict d ∧
         Event.__init__ event ds sid =
           Return {| Event.datastore := ds; Event.sketch_id := sid;
                     Event.event_id := default VNone (d !! "_id");
                     Event.event_type := default VNone (d !! "_type");
                     Event.index_name := default VNone (d !! "_index");
                     Event.source := default VNone (d !! "_source") |}) ∨
   Event.__init__ event ds sid = Raise (AttributeError "get")).
Proof.
  destruct event; (split; [intros msg; discriminate|]);
    try (right; reflexivity).
  left. eexists. split; [done|]. apply Event_init_dict.
Qed.

Section EventCalls.
Context (env : Env) (ord : SetOrder).

(** X2: with a true [sketch_id], [add_label] asks [set_label] (user 0,
    [single_update=False]) and enqueues, for the same document, exactly
    the event that [set_label] returned; if [set_label] raises, nothing
    is enqueued and its exception comes out. *)
Theorem add_label_enqueues_set_label_answer label toggle self log :
  truthy (Event.sketch_id self) = true →
  let ask := set_label (Event.datastore self) (Event.index_name self)
               (Event.event_id self) (Event.event_type self)
               (Event.sketch_id self) 0 label toggle false in
  Event.add_label env label toggle self log =
    match env log ask with
    | Raise e => (Raise e, self, log ++ [ask])
    | Return updated_event =>
        let enqueue := import_event (Event.datastore self) (Event.index_name self)
                         (Event.event_type self) (Event.event_id self)
                         updated_event in
        (match env (log ++ [ask]) enqueue with
         | Return _ => Return tt
         | Raise e => Raise e
         end, self, log ++ [ask; enqueue])
    end.
Proof.
  intros Ht ask. rewrite add_label_run by done. cbv zeta. fold ask.
  destruct (env log ask) as [u|e]; [|done].
  rewrite update_run. cbv zeta. by rewrite <- app_assoc.
Qed.

(** How [stays_on_document] goes through the plumbing of [M]. *)
Lemma stays_ret {A} self (a : A) : stays_on_document self (mret a).
Proof. intros log. exists []. by rewrite app_nil_r. Qed.

Lemma stays_raise {A} self e : stays_on_document self (raise e : M Event.t A).
Proof. intros log. exists []. by rewrite app_nil_r. Qed.

Lemma stays_lift {A} self (r : outcome A) : stays_on_document self (lift r).
Proof. intros log. exists []. by rewrite app_nil_r. Qed.

Lemma stays_external self c :
  own_call self c → stays_on_document self (external env c).
Proof. intros Hc log. exists [c]. split; [done|]. split; [|done]. by constructor. Qed.

Lemma stays_bind {A B} self (m : M Event.t A) (f : A → M Event.t B) :
  stays_on_document self m → (∀ a, stays_on_document self (f a)) →
  stays_on_document self (m ≫= f).
Proof.
  intros Hm Hf log. destruct (Hm log) as (t1 & Hlog1 & Hown1 & Hself1).
  unfold mbind, M_bind.
  destruct (m self log) as [[[a|e] self1] log1]; simpl in *; subst.
  - destruct (Hf a (log ++ t1)) as (t2 & Hlog2 & Hown2 & Hself2).
    exists (t1 ++ t2). rewrite Hlog2, Hself2, app_assoc.
    split; [done|]. split; [by apply Forall_app|done].
  - by exists t1.
Qed.

Lemma stays_get_self {A} self (f : Event.t → M Event.t A) :
  stays_on_document self (f self) → stays_on_document self (get_self ≫= f).
Proof. intros Hf log. exact (Hf log). Qed.

Lemma update_stays self event : stays_on_document self (Event._update env event).
Proof.
  apply stays_get_self, stays_bind; [|intros; apply stays_ret].
  by apply stays_external.
Qed.

Lemma add_label_stays self label toggle :
  stays_on_document self (Event.add_label env label toggle).
Proof.
  apply stays_get_self. destruct (negb _); [apply stays_raise|].
  apply stays_bind; [|intros; apply update_stays].
  by apply stays_external.
Qed.

(** X3: every writing method of an Event leaves the Event unchanged and
    only makes calls for its own document: updates and label changes
    carry its datastore, index, type and id (and its sketch, user 0), and
    the relational calls of [add_comment] its sketch, index and document
    id.  None of them ever flushes, refreshes or searches. *)
Theorem Event_methods_stay_on_document self :
  (∀ attributes, stays_on_document self (Event.add_attributes env attributes)) ∧
  (∀ label toggle, stays_on_document self (Event.add_label env label toggle)) ∧
  (∀ tags, stays_on_document self (Event.add_tags env ord tags)) ∧
  stays_on_document self (Event.add_star env) ∧
  (∀ comment, stays_on_document self (Event.add_comment env comment)).
Proof.
  split; [intros; apply update_stays|].
  split; [intros; apply add_label_stays|].
  split; [|split; [apply add_label_stays|]].
  - intros tags. apply stays_get_self.
    apply stays_bind; [apply stays_lift|intros existing].
    apply stays_bind; [apply stays_lift|intros s].
    apply update_stays.
  - intros comment. apply stays_get_self.
    apply stays_bind; [by apply stays_external|intros sk].
    apply stays_bind; [by apply stays_external|intros si].
    apply stays_bind; [by apply stays_external|intros dbe].
    apply stays_bind; [by apply stays_external|intros _].
    apply stays_bind; [by apply stays_external|intros _].
    apply stays_bind; [by apply stays_external|intros _].
    apply add_label_stays.
Qed.

End EventCalls.

(** A label toggled on an Event of sketch 1. *)
Lemma add_label_enqueues_set_label_answer_witness :
  let self := event (VInt 1) ["x"] in
  let ask := set_label 7 (VStr "idx1") (VStr "ev1") (VStr "plaso_event")
               (VInt 1) 0 "suspicious" true false in
  Event.add_label (serving []) "suspicious" true self [] =
    match serving [] [] ask with
    | Raise e => (Raise e, self, [] ++ [ask])
    | Return updated_event =>
        let enqueue := import_event 7 (VStr "idx1") (VStr "plaso_event")
                         (VStr "ev1") updated_event in
        (match serving [] ([] ++ [ask]) enqueue with
         | Return _ => Return tt
         | Raise e => Raise e
         end, self, [] ++ [ask; enqueue])
    end.
Proof.
  apply (add_label_enqueues_set_label_answer (serving []) "suspicious" true
           (event (VInt 1) ["x"]) []).
  reflexivity.
Defined.

Section CommentSafety.
Context (env : Env).

(** In a log made of relational calls only, no position holds a call to
    the datastore. *)
Ltac no_datastore_call :=
  let i := fresh "i" in let c := fresh "c" in
  let Hi := fresh "Hi" in let Hc := fresh "Hc" in
  intros i c Hi Hc;
  repeat (destruct i as [|i]; simpl in Hi;
          [injection Hi as <-; discriminate Hc|]);
  discriminate Hi.

(** X4: however the relational store answers, [add_comment] calls the
    datastore only after [db_session.commit()] has been called, as the
    sixth call, and has returned: if any of the relational calls raises,
    the run stops there and no label is asserted. *)
Theorem add_comment_labels_only_after_commit comment self log :
  ∃ tail,
    (Event.add_comment env comment self log).2 = log ++ tail ∧
    ∀ i c, tail !! i = Some c → is_relational c = false →
      5 < i ∧ tail !! 5 = Some db_session_commit ∧
      ∃ v, env (log ++ take 5 tail) db_session_commit = Return v.
Proof.
  unfold Event.add_comment. unfold_M. cbv beta iota zeta.
  set (c1 := SQLSketch_query_get (Event.sketch_id self)).
  set (c2 := SearchIndex_query_first (Event.index_name self)).
  destruct (env log c1) as [sk|e1];
    [|exists [c1]; split; [done|no_datastore_call]].
  destruct (env (log ++ [c1]) c2) as [si|e2];
    [|exists [c1; c2]; split; [by rewrite <- !app_assoc|no_datastore_call]].
  set (c3 := SQLEvent_get_or_create sk si (Event.event_id self)).
  destruct (env ((log ++ [c1]) ++ [c2]) c3) as [dbe|e3];
    [|exists [c1; c2; c3]; split; [by rewrite <- !app_assoc|no_datastore_call]].
  set (c4 := comments_append dbe {| comment_text := comment; comment_user := VNone |}).
  set (c5 := db_session_add (ObjEvent dbe)).
  destruct (env (((log ++ [c1]) ++ [c2]) ++ [c3]) c4) as [v4|e4];
    [|exists [c1; c2; c3; c4]; split; [by rewrite <- !app_assoc|no_datastore_call]].
  destruct (env ((((log ++ [c1]) ++ [c2]) ++ [c3]) ++ [c4]) c5) as [v5|e5];
    [|exists [c1; c2; c3; c4; c5]; split;
      [by rewrite <- !app_assoc|no_datastore_call]].
  destruct (env (((((log ++ [c1]) ++ [c2]) ++ [c3]) ++ [c4]) ++ [c5])
              db_session_commit) as [v6|e6] eqn:H6;
    [|exists [c1; c2; c3; c4; c5; db_session_commit]; split;
      [by rewrite <- !app_assoc|no_datastore_call]].
  cbv beta iota.
  destruct (add_label_frame env "__ts_comment" false self
              ((((((log ++ [c1]) ++ [c2]) ++ [c3]) ++ [c4]) ++ [c5]) ++
               [db_session_commit])) as (tail & _ & Hlog & _).
  exists ([c1; c2; c3; c4; c5; db_session_commit] ++ tail).
  split; [rewrite Hlog; by rewrite <- !app_assoc|].
  intros i c Hi Hc.
  do 6 (destruct i as [|i]; simpl in Hi; [injection Hi as <-; discriminate Hc|]).
  split; [lia|]. split; [done|].
  exists v6. simpl. rewrite <- H6. f_equal. by rewrite <- !app_assoc.
Qed.

End CommentSafety.

(** The relational store loses its connection at [get_or_create]. *)
Example add_comment_relational_failure :
  let env : Env := λ log c,
    match c with
    | SQLEvent_get_or_create _ _ _ => Raise (ExternalError "connection lost")
    | _ => serving [] log c
    end in
  Event.add_comment env "odd" (event (VInt 1) ["x"]) [] =
  (Raise (ExternalError "connection lost"), event (VInt 1) ["x"],
   [SQLSketch_query_get (VInt 1);
    SearchIndex_query_first (VStr "idx1");
    SQLEvent_get_or_create (VObj 1) (VObj 2) (VStr "ev1")]).
Proof. vm_compute. reflexivity. Qed.

(** *** More on tags *)

Section SetErrors.

Lemma hash_raises v e : hash v = Raise e → ∃ msg, e = TypeError msg.
Proof. destruct v; intros [=]; subst; by eexists. Qed.

Lemma iter_raises v e : Py.iter v = Raise e → ∃ msg, e = TypeError msg.
Proof. destruct v; intros [=]; subst; by eexists. Qed.

(** Updating a set keeps it free of repetitions and fails, if at all,
    with [TypeError] (an unhashable item). *)
Lemma set_update_outcome items : ∀ s,
  NoDup s →
  match set_update s items with
  | Return s' => NoDup s'
  | Raise e => ∃ msg, e = TypeError msg
  end.
Proof.
  induction items as [|v items IH]; intros s Hs; simpl; [done|].
  destruct (hash v) as [h|e] eqn:Hh; simpl.
  - by apply IH, set_add_NoDup.
  - by eapply hash_raises.
Qed.

Lemma set_union_outcome others : ∀ s,
  NoDup s →
  match set_union s others with
  | Return s' => NoDup s'
  | Raise e => ∃ msg, e = TypeError msg
  end.
Proof.
  induction others as [|o others IH]; intros s Hs; simpl; [done|].
  destruct (Py.iter o) as [items|e] eqn:Hi; simpl; [|by eapply iter_raises].
  pose proof (set_update_outcome items s Hs) as Hu.
  destruct (set_update s items) as [s'|e]; simpl; [by apply IH|done].
Qed.

Lemma unhash_inj : Inj (=) (=) unhash.
Proof. intros [] [] [=]; by subst. Qed.

(** The union of the strings [T0] with whatever iterates as the strings
    [T1]. *)
Lemma set_union_iter_strings (T0 T1 : list string) tags :
  Py.iter tags = Return (VStr <$> T1) →
  set_union [] [VList (VStr <$> T0); tags] =
  Return (foldl set_add [] (HStr <$> (T0 ++ T1))).
Proof.
  intros Hi. simpl. rewrite set_update_strings. simpl. rewrite Hi. simpl.
  rewrite set_update_strings. simpl. by rewrite fmap_app, foldl_app.
Qed.

End SetErrors.

Section TagEdges.
Context (env : Env) (ord : SetOrder).

(** X5: whatever [tags] and the snapshot are, [add_tags] either raises
    before any call ([AttributeError] when the snapshot is not a dict,
    [TypeError] when something cannot be iterated or hashed), or makes
    exactly one call: an update of its own document whose only field is
    [tag], a list without repetition.  It never touches another field. *)
Theorem add_tags_writes_only_tag tags self log :
  (∃ e, Event.add_tags env ord tags self log = (Raise e, self, log) ∧
        (e = AttributeError "get" ∨ ∃ msg, e = TypeError msg)) ∨
  (∃ L, NoDup L ∧
        let c := import_event (Event.datastore self) (Event.index_name self)
                   (Event.event_type self) (Event.event_id self)
                   (VDict {[ "tag" := VList L ]}) in
        Event.add_tags env ord tags self log =
          (match env log c with
           | Return _ => Return tt
           | Raise e => Raise e
           end, self, log ++ [c])).
Proof.
  unfold Event.add_tags. unfold_M. cbv beta iota zeta.
  destruct (Py.get (Event.source self) "tag" (VList [])) as [existing|e] eqn:Hg.
  - cbv beta iota.
    pose proof (set_union_outcome [existing; tags] [] (NoDup_nil_2)) as Hu.
    destruct (set_union [] [existing; tags]) as [s|e]; cbv beta iota.
    + right. exists (unhash <$> set_to_list ord s). split.
      * pose proof unhash_inj as Hinj. apply (NoDup_fmap_2 unhash).
        by rewrite (set_to_list_perm ord s).
      * cbv zeta. apply update_run.
    + left. exists e. split; [done|]. by right.
  - left. exists e. split; [done|]. left.
    destruct (Event.source self); simpl in Hg; by inversion Hg.
Qed.

(** X6: a single string passed as [tags] is iterated character by
    character: on a snapshot with tags [T0], [add_tags "abc"] enqueues
    the members of [T0] and the one-character strings of the argument,
    not the string itself. *)
Theorem add_tags_string_is_split self (T0 : list string) (s : string) log :
  Py.get (Event.source self) "tag" (VList []) = Return (VList (VStr <$> T0)) →
  ∃ L : list string,
    NoDup L ∧
    (∀ x, x ∈ L ↔
          x ∈ T0 ∨ ∃ ch, ch ∈ String.list_ascii_of_string s ∧
                         x = String ch EmptyString) ∧
    let c := import_event (Event.datastore self) (Event.index_name self)
               (Event.event_type self) (Event.event_id self)
               (VDict {[ "tag" := VList (VStr <$> L) ]}) in
    Event.add_tags env ord (VStr s) self log =
      (match env log c with
       | Return _ => Return tt
       | Raise e => Raise e
       end, self, log ++ [c]).
Proof.
  intros Hsrc.
  set (T1 := (λ ch, String ch EmptyString) <$> String.list_ascii_of_string s).
  destruct (list_of_union ord T0 T1) as (L & HL & Hnd & Hmem).
  exists L. split; [done|]. split.
  - intros x. rewrite Hmem. subst T1. rewrite list_elem_of_fmap.
    split; (intros [?|(ch & ? & ?)]; [by left|right; by exists ch]).
  - cbv zeta. rewrite <- update_run.
    unfold Event.add_tags. unfold_M. cbv beta iota zeta.
    rewrite Hsrc. cbv beta iota.
    rewrite (set_union_iter_strings T0 T1).
    + cbv beta iota. by rewrite HL.
    + subst T1. simpl. by rewrite <- list_fmap_compose.
Qed.

(** X7: a hit without [_source] still gives an Event, but every
    [add_tags] on that Event raises [AttributeError] before any call:
    the missing key only shows when the snapshot is read. *)
Theorem add_tags_without_source (d : gmap string value) ds sid :
  d !! "_source" = None →
  ∃ ev, Event.__init__ (VDict d) ds sid = Return ev ∧
        ∀ tags log,
          Event.add_tags env ord tags ev log = (Raise (AttributeError "get"), ev, log).
Proof.
  intros Hd. eexists. split; [apply Event_init_dict|].
  intros tags log. unfold Event.add_tags. unfold_M. simpl. by rewrite Hd.
Qed.

End TagEdges.

(** The tag [new] given as a bare string. *)
Lemma add_tags_string_is_split_witness :
  ∃ L : list string,
    NoDup L ∧
    (∀ x, x ∈ L ↔
          x ∈ ["x"] ∨ ∃ ch, ch ∈ String.list_ascii_of_string "new" ∧
                            x = String ch EmptyString) ∧
    let c := import_event 7 (VStr "idx1") (VStr "plaso_event") (VStr "ev1")
               (VDict {[ "tag" := VList (VStr <$> L) ]}) in
    Event.add_tags (serving []) insertion_order (VStr "new") (event VNone ["x"]) [] =
      (match serving [] [] c with
       | Return _ => Return tt
       | Raise e => Raise e
       end, event VNone ["x"], [] ++ [c]).
Proof.
  apply (add_tags_string_is_split (serving []) insertion_order
           (event VNone ["x"]) ["x"] "new" []).
  vm_compute. reflexivity.
Defined.

Example add_tags_string_run :
  (Event.add_tags (serving []) insertion_order (VStr "new") (event VNone ["x"]) []).2 =
  [import_event 7 (VStr "idx1") (VStr "plaso_event") (VStr "ev1")
     (VDict {[ "tag" := VList [VStr "x"; VStr "n"; VStr "e"; VStr "w"] ]})].
Proof. vm_compute. reflexivity. Qed.

(** The hit of [hit_without_source]. *)
Lemma add_tags_without_source_witness :
  ∃ ev, Event.__init__ hit_without_source 7 (VInt 1) = Return ev ∧
        ∀ tags log,
          Event.add_tags (serving []) insertion_order tags ev log =
            (Raise (AttributeError "get"), ev, log).
Proof.
  apply (add_tags_without_source (serving []) insertion_order
           (<[ "_id" := VStr "ev1" ]> (<[ "_type" := VStr "plaso_event" ]>
              {[ "_index" := VStr "idx1" ]})) 7 (VInt 1)).
  vm_compute. reflexivity.
Defined.

(** *** Sketches *)

Section SketchMethods.
Context (env : Env) (rows : nat → gmap string value).

(** X8: [add_view] persists nothing before the validator has accepted
    the filter.  Either the gate rejects the call and no call is made; or
    the validator is asked about the caller's filter (the empty mapping
    when that is false) and raises, and nothing is added or committed; or
    it answers, and the view that is added, committed and returned is the
    draft with the validator's answer as its filter. *)
Theorem add_view_persists_only_validated
    name query_string query_dsl query_filter self log :
  let filter := if negb (truthy query_filter) then VDict ∅ else query_filter in
  let draft := {| view_name := name;
                  view_sketch := Sketch.sql_sketch self;
                  view_user := VNone;
                  view_query_string := query_string;
                  view_query_filter := filter;
                  view_query_dsl := query_dsl;
                  view_searchtemplate := VNone |} in
  let ask := validate_filter draft filter in
  let result :=
    Sketch.add_view env name query_string query_dsl query_filter self log in
  result = (Raise (ValueError "query_string and query_dsl is missing."), self, log) ∨
  (∃ e, env log ask = Raise e ∧ result = (Raise e, self, log ++ [ask])) ∨
  (∃ validated rest,
     env log ask = Return validated ∧
     let view := set_query_filter draft validated in
     result.2 = log ++ ask :: db_session_add (ObjView view) :: rest ∧
     result.1.2 = self ∧
     (rest = [] ∨ rest = [db_session_commit]) ∧
     (∀ v, result.1.1 = Return v → v = view ∧ rest = [db_session_commit])).
Proof.
  intros filter draft ask result. subst result.
  destruct (truthy query_string) eqn:Hs.
  - destruct (truthy query_dsl) eqn:Hd.
    + left. unfold Sketch.add_view. unfold_M. cbv beta iota zeta.
      by rewrite Hs, Hd.
    + right. rewrite add_view_run by done. cbv zeta.
      fold filter. fold draft. fold ask.
      destruct (env log ask) as [validated|e]; [right|left; by exists e].
      exists validated.
      destruct (env (log ++ [ask]) _) as [?|e].
      * exists [db_session_commit]. split; [done|]. cbv zeta.
        split; [done|]. split; [done|].
        split; [by right|]. simpl.
        destruct (env _ db_session_commit); intros v [=]; by subst.
      * exists []. split; [done|]. cbv zeta.
        split; [done|]. split; [done|].
        split; [by left|]. intros v [=].
  - left. unfold Sketch.add_view. unfold_M. cbv beta iota zeta.
    by rewrite Hs.
Qed.

(** Reading the index names stops at the first timeline that lacks one. *)
Lemma index_names_all timelines names :
  Forall2 (λ timeline index_name,
             ∃ searchindex,
               getattr rows timeline "searchindex" = Return searchindex ∧
               getattr rows searchindex "index_name" = Return index_name)
          timelines names →
  Sketch.index_names rows timelines = Return names.
Proof.
  induction 1 as [|t n ts ns (si & Hsi & Hn) _ IH]; simpl; [done|].
  by rewrite Hsi; simpl; rewrite Hn; simpl; rewrite IH.
Qed.

Lemma getattr_raises obj name e :
  getattr rows obj name = Raise e → e = AttributeError name.
Proof.
  destruct obj; simpl; try (intros [=]; done).
  destruct (rows h !! name); intros [=]; done.
Qed.

Lemma index_names_raises timelines e :
  Sketch.index_names rows timelines = Raise e →
  e = AttributeError "searchindex" ∨ e = AttributeError "index_name".
Proof.
  induction timelines as [|t ts IH]; simpl; [intros [=]|].
  destruct (getattr rows t "searchindex") as [si|e1] eqn:H1; simpl.
  - destruct (getattr rows si "index_name") as [n|e2] eqn:H2; simpl.
    + destruct (Sketch.index_names rows ts) as [ns|e3]; simpl; [intros [=]|].
      intros [= <-]. by apply IH.
    + intros [= <-]. right. by eapply getattr_raises.
  - intros [= <-]. left. by eapply getattr_raises.
Qed.

Lemma index_names_broken timelines timeline :
  timeline ∈ timelines →
  (∀ searchindex, getattr rows timeline "searchindex" ≠ Return searchindex) →
  ∃ e, Sketch.index_names rows timelines = Raise e.
Proof.
  intros Hin Hbroken. induction Hin as [t ts|t t' ts _ IH]; simpl.
  - destruct (getattr rows t "searchindex") as [si|e] eqn:H1; [by destruct (Hbroken si)|].
    by eexists.
  - destruct (IH Hbroken) as [e He]. rewrite He.
    destruct (getattr rows t' "searchindex") as [si|e1]; simpl; [|by eexists].
    destruct (getattr rows si "index_name") as [n|e2]; simpl; by eexists.
Qed.

(** X9: when the row of the sketch lists its active timelines and each
    of them has a search index with a name, [all_indices] returns those
    names, one per timeline and in the order of the timelines (an index
    behind two timelines appears twice), without any call. *)
Theorem all_indices_one_name_per_timeline self timelines names log :
  getattr rows (Sketch.sql_sketch self) "active_timelines" = Return (VList timelines) →
  Forall2 (λ timeline index_name,
             ∃ searchindex,
               getattr rows timeline "searchindex" = Return searchindex ∧
               getattr rows searchindex "index_name" = Return index_name)
          timelines names →
  Sketch.all_indices rows self log = (Return (VList names), self, log).
Proof.
  intros Hrow Hall. unfold Sketch.all_indices. unfold_M. cbv beta iota zeta.
  rewrite Hrow. simpl. by rewrite (index_names_all _ _ Hall).
Qed.

(** X10: if one of the active timelines has no search index,
    [all_indices] raises [AttributeError] and returns no partial list. *)
Theorem all_indices_broken_timeline self timelines timeline log :
  getattr rows (Sketch.sql_sketch self) "active_timelines" = Return (VList timelines) →
  timeline ∈ timelines →
  (∀ searchindex, getattr rows timeline "searchindex" ≠ Return searchindex) →
  ∃ name,
    (name = "searchindex" ∨ name = "index_name") ∧
    Sketch.all_indices rows self log = (Raise (AttributeError name), self, log).
Proof.
  intros Hrow Hin Hbroken.
  destruct (index_names_broken timelines timeline Hin Hbroken) as [e He].
  unfold Sketch.all_indices. unfold_M. cbv beta iota zeta.
  rewrite Hrow. simpl. rewrite He.
  destruct (index_names_raises _ _ He) as [-> | ->].
  - exists "searchindex". split; [by left|done].
  - exists "index_name". split; [by right|done].
Qed.

(** X11: [Sketch(sketch_id)] does not check that the sketch exists.  When
    the lookup answers [None], construction returns a Sketch all the
    same; the failure shows later: [all_indices] raises [AttributeError],
    and every view that [add_view] returns for it belongs to no sketch. *)
Theorem Sketch_of_missing_row sketch_id log :
  env log (SQLSketch_query_get sketch_id) = Return VNone →
  ∃ s,
    Sketch.__init__ env sketch_id tt log =
      (Return s, tt, log ++ [SQLSketch_query_get sketch_id]) ∧
    (∀ log', Sketch.all_indices rows s log' =
               (Raise (AttributeError "active_timelines"), s, log')) ∧
    (∀ name query_string query_dsl query_filter log' v s' log'',
       Sketch.add_view env name query_string query_dsl query_filter s log' =
         (Return v, s', log'') →
       view_sketch v = VNone).
Proof.
  intros Hget. exists {| Sketch.sql_sketch := VNone |}. split; [|split].
  - unfold Sketch.__init__. unfold_M. by rewrite Hget.
  - done.
  - intros name qs dsl qf log' v s' log'' Hret.
    destruct (truthy qs) eqn:Hs; [destruct (truthy dsl) eqn:Hd|].
    + unfold Sketch.add_view in Hret. unfold_M. cbv beta iota zeta in Hret.
      rewrite Hs, Hd in Hret. discriminate Hret.
    + rewrite add_view_run in Hret by done. cbv zeta in Hret.
      destruct (env log' _) as [validated|e]; [|discriminate Hret].
      destruct (env (log' ++ [_]) _) as [?|e]; [|discriminate Hret].
      destruct (env (log' ++ [_; _]) db_session_commit); [|discriminate Hret].
      by injection Hret as <- _ _.
    + unfold Sketch.add_view in Hret. unfold_M. cbv beta iota zeta in Hret.
      rewrite Hs in Hret. discriminate Hret.
Qed.

End SketchMethods.

(** Sketch 1 of [two_timelines]: both timelines are over [idx1]. *)
Lemma all_indices_one_name_per_timeline_witness :
  Sketch.all_indices two_timelines sketch [] =
    (Return (VList [VStr "idx1"; VStr "idx1"]), sketch, []).
Proof.
  apply (all_indices_one_name_per_timeline two_timelines sketch [VObj 10; VObj 11]).
  - reflexivity.
  - repeat constructor; by exists (VObj 12).
Defined.

(** As above, with a third timeline (object 13) that has no attributes. *)
Lemma all_indices_broken_timeline_witness :
  ∃ name,
    (name = "searchindex" ∨ name = "index_name") ∧
    Sketch.all_indices
      (λ h, if Nat.eqb h 1
            then {[ "active_timelines" := VList [VObj 10; VObj 13; VObj 11] ]}
            else two_timelines h)
      sketch [] = (Raise (AttributeError name), sketch, []).
Proof.
  apply (all_indices_broken_timeline
           (λ h, if Nat.eqb h 1
                 then {[ "active_timelines" := VList [VObj 10; VObj 13; VObj 11] ]}
                 else two_timelines h)
           sketch [VObj 10; VObj 13; VObj 11] (VObj 13)).
  - reflexivity.
  - apply list_elem_of_In. simpl. tauto.
  - intros si. vm_compute. discriminate.
Defined.

(** No sketch has id 99. *)
Lemma Sketch_of_missing_row_witness :
  ∃ s,
    Sketch.__init__ sketch_missing (VInt 99) tt [] =
      (Return s, tt, [] ++ [SQLSketch_query_get (VInt 99)]) ∧
    (∀ log', Sketch.all_indices two_timelines s log' =
               (Raise (AttributeError "active_timelines"), s, log')) ∧
    (∀ name query_string query_dsl query_filter log' v s' log'',
       Sketch.add_view sketch_missing name query_string query_dsl query_filter s log' =
         (Return v, s', log'') →
       view_sketch v = VNone).
Proof.
  apply (Sketch_of_missing_row sketch_missing two_timelines (VInt 99) []).
  reflexivity.
Defined.

(** *** Analyzer construction and the whole stream *)

Section AnalyzerConstruction.
Context (env : Env) (config : value) (NAME : string)
        (ElasticsearchDataStore : value → value → outcome handle).

(** X12: with the host and port configured and the datastore client
    built, [BaseAnalyzer.__init__] binds a Sketch exactly when
    [sketch_id] is true.  With [sketch_id] [None] or 0 it makes no call
    and leaves [sketch] at [None]; otherwise it makes one lookup and keeps
    its answer, and if the lookup raises the analyzer is left with its
    name and datastore set and no sketch. *)
Theorem BaseAnalyzer_init_binds_sketch_when_true self log host port ds :
  getitem config "ELASTIC_HOST" = Return host →
  getitem config "ELASTIC_PORT" = Return port →
  ElasticsearchDataStore host port = Return ds →
  let base :=
    {| BaseAnalyzer.name := NAME; BaseAnalyzer.datastore := ds;
       BaseAnalyzer.sketch := None;
       BaseAnalyzer.sketch_id := BaseAnalyzer.sketch_id self;
       BaseAnalyzer.index_name := BaseAnalyzer.index_name self |} in
  let lookup := SQLSketch_query_get (BaseAnalyzer.sketch_id self) in
  BaseAnalyzer.__init__ env config NAME ElasticsearchDataStore self log =
    if truthy (BaseAnalyzer.sketch_id self) then
      match env log lookup with
      | Return row =>
          (Return tt,
           BaseAnalyzer.with_sketch base (Some {| Sketch.sql_sketch := row |}),
           log ++ [lookup])
      | Raise e => (Raise e, base, log ++ [lookup])
      end
    else (Return tt, base, log).
Proof.
  intros Hhost Hport Hds base lookup.
  unfold BaseAnalyzer.__init__, construct, put_self, Sketch.__init__.
  unfold_M. cbv beta iota zeta.
  rewrite Hhost. cbv beta iota. rewrite Hport. cbv beta iota.
  rewrite Hds. cbv beta iota. simpl.
  destruct (truthy (BaseAnalyzer.sketch_id self)); [|done].
  fold lookup. by destruct (env log lookup).
Qed.

End AnalyzerConstruction.

(** An analyzer prepared with sketch id 0: no lookup, no Sketch. *)
Lemma BaseAnalyzer_init_binds_sketch_when_true_witness :
  BaseAnalyzer.__init__ (serving []) app_config "name" connect (prepared (VInt 0)) [] =
    if truthy (VInt 0) then
      match serving [] [] (SQLSketch_query_get (VInt 0)) with
      | Return row =>
          (Return tt,
           BaseAnalyzer.with_sketch
             {| BaseAnalyzer.name := "name"; BaseAnalyzer.datastore := 7;
                BaseAnalyzer.sketch := None; BaseAnalyzer.sketch_id := VInt 0;
                BaseAnalyzer.index_name := VStr "idx1" |}
             (Some {| Sketch.sql_sketch := row |}),
           [] ++ [SQLSketch_query_get (VInt 0)])
      | Raise e =>
          (Raise e,
           {| BaseAnalyzer.name := "name"; BaseAnalyzer.datastore := 7;
              BaseAnalyzer.sketch := None; BaseAnalyzer.sketch_id := VInt 0;
              BaseAnalyzer.index_name := VStr "idx1" |},
           [] ++ [SQLSketch_query_get (VInt 0)])
      end
    else (Return tt,
          {| BaseAnalyzer.name := "name"; BaseAnalyzer.datastore := 7;
             BaseAnalyzer.sketch := None; BaseAnalyzer.sketch_id := VInt 0;
             BaseAnalyzer.index_name := VStr "idx1" |}, []).
Proof.
  apply (BaseAnalyzer_init_binds_sketch_when_true (serving []) app_config "name"
           connect (prepared (VInt 0)) [] (VStr "127.0.0.1") (VInt 9200) 7);
    reflexivity.
Defined.

Example BaseAnalyzer_init_with_sketch :
  BaseAnalyzer.__init__ (serving []) app_config "name" connect (prepared (VInt 1)) [] =
  (Return tt, analyzer, [SQLSketch_query_get (VInt 1)]).
Proof. vm_compute. reflexivity. Qed.

Example BaseAnalyzer_init_missing_port :
  BaseAnalyzer.__init__ (serving []) (VDict {[ "ELASTIC_HOST" := VStr "127.0.0.1" ]})
    "name" connect (prepared (VInt 1)) [] =
  (Raise (KeyError "ELASTIC_PORT"),
   BaseAnalyzer.with_name (prepared (VInt 1)) "name", []).
Proof. vm_compute. reflexivity. Qed.

Section WholeStream.
Context (env : Env).

Lemma next_event_hit self log (d : gmap string value) :
  env log (search_stream_next (BaseAnalyzer.datastore self)) = Return (VDict d) →
  BaseAnalyzer.next_event env self log =
    (Return (Some (event_of_hit self d), BaseAnalyzer.Suspended), self,
     log ++ [search_stream_next (BaseAnalyzer.datastore self)]).
Proof.
  intros Hhit. unfold BaseAnalyzer.next_event. unfold_M. by rewrite Hhit.
Qed.

Lemma next_event_stop self log :
  env log (search_stream_next (BaseAnalyzer.datastore self)) = Raise StopIteration →
  BaseAnalyzer.next_event env self log =
    (Return (None, BaseAnalyzer.Finished), self,
     log ++ [search_stream_next (BaseAnalyzer.datastore self)]).
Proof.
  intros Hstop. unfold BaseAnalyzer.next_event. unfold_M. by rewrite Hstop.
Qed.

(** What a turn that yields an Event looks like. *)
Lemma next_event_yield self log ev g' self' log' :
  BaseAnalyzer.next_event env self log = (Return (Some ev, g'), self', log') →
  g' = BaseAnalyzer.Suspended ∧ self' = self ∧
  log' = log ++ [search_stream_next (BaseAnalyzer.datastore self)] ∧
  ∃ d, env log (search_stream_next (BaseAnalyzer.datastore self)) = Return (VDict d) ∧
       ev = event_of_hit self d.
Proof.
  unfold BaseAnalyzer.next_event. unfold_M.
  destruct (env log _) as [hit|e] eqn:Hhit; simpl.
  - destruct hit; simpl; try (intros [=]; done).
    intros [= <- <- <- <-]. repeat split. by exists d.
  - destruct e; intros [=].
Qed.

(** X13: every Event that the stream yields, at the first turn or at a
    later one, is built from a hit that the stream has just handed out;
    it carries the analyzer's datastore and [sketch_id] and the hit's
    [_id], [_type], [_index] and [_source] ([None] for a missing key).
    The analyzer is unchanged and the generator is suspended. *)
Theorem next_yields_bound_event g self log ev g' self' log' :
  BaseAnalyzer.next env g self log = (Return (Some ev, g'), self', log') →
  g' = BaseAnalyzer.Suspended ∧ self' = self ∧
  ∃ before d,
    log' = before ++ [search_stream_next (BaseAnalyzer.datastore self)] ∧
    env before (search_stream_next (BaseAnalyzer.datastore self)) = Return (VDict d) ∧
    Event.datastore ev = BaseAnalyzer.datastore self ∧
    Event.sketch_id ev = BaseAnalyzer.sketch_id self ∧
    Event.event_id ev = default VNone (d !! "_id") ∧
    Event.event_type ev = default VNone (d !! "_type") ∧
    Event.index_name ev = default VNone (d !! "_index") ∧
    Event.source ev = default VNone (d !! "_source").
Proof.
  assert (Hturn : ∀ l, BaseAnalyzer.next_event env self l =
                         (Return (Some ev, g'), self', log') →
            g' = BaseAnalyzer.Suspended ∧ self' = self ∧
            ∃ before d,
              log' = before ++ [search_stream_next (BaseAnalyzer.datastore self)] ∧
              env before (search_stream_next (BaseAnalyzer.datastore self)) =
                Return (VDict d) ∧
              Event.datastore ev = BaseAnalyzer.datastore self ∧
              Event.sketch_id ev = BaseAnalyzer.sketch_id self ∧
              Event.event_id ev = default VNone (d !! "_id") ∧
              Event.event_type ev = default VNone (d !! "_type") ∧
              Event.index_name ev = default VNone (d !! "_index") ∧
              Event.source ev = default VNone (d !! "_source")).
  { intros l Hl. apply next_event_yield in Hl as (-> & -> & -> & d & Hd & ->).
    split; [done|]. split; [done|]. exists l, d. by repeat split. }
  destruct g as [q f rf idx| |]; [|apply Hturn|intros [=]].
  change (BaseAnalyzer.Created q f rf idx) with (BaseAnalyzer.event_stream q f rf idx).
  rewrite next_created_run. cbv zeta.
  destruct (Py.iter _) as [items|e]; [|intros [=]].
  destruct (refresh_each_run env (BaseAnalyzer.datastore self) items self log)
    as [-> | (k & e & _ & ->)]; [|intros [=]].
  destruct (env _ (search_stream _ _ _ _ _)); [apply Hturn|intros [=]].
Qed.

(** X14: when [indices] is false (absent, or an empty list), the stream
    falls back to the analyzer's own index: its first call is the refresh
    of that index, and if that refresh returns, the search that follows
    is over the one-element list of that index. *)
Theorem event_stream_empty_indices_fall_back
    query_string query_filter return_fields indices self log :
  truthy indices = false →
  let ds := BaseAnalyzer.datastore self in
  let own := BaseAnalyzer.index_name self in
  let search :=
    search_stream ds query_string
      (if negb (truthy query_filter) then VDict ∅ else query_filter)
      (VList [own])
      (if negb (truthy return_fields) then VStr "message" else return_fields) in
  let result :=
    BaseAnalyzer.next env
      (BaseAnalyzer.event_stream query_string query_filter return_fields indices)
      self log in
  match env log (indices_refresh ds own) with
  | Raise e => result = (Raise e, self, log ++ [indices_refresh ds own])
  | Return _ =>
      ∃ rest, result.2 = log ++ [indices_refresh ds own; search] ++ rest ∧
              (rest = [] ∨ rest = [search_stream_next ds])
  end.
Proof.
  intros Hf ds own search result. subst result.
  rewrite next_created_run. cbv zeta. rewrite Hf. simpl.
  fold ds. fold own. unfold_M.
  destruct (env log (indices_refresh ds own)) as [?|e]; [|done].
  fold search.
  destruct (env _ search) as [?|e].
  - pose proof (next_event_log env self ((log ++ [indices_refresh ds own]) ++ [search]))
      as [Hlog _].
    exists [search_stream_next ds]. split; [|by right].
    fold ds in Hlog. rewrite Hlog. by rewrite <- !app_assoc.
  - exists []. split; [|by left]. simpl. by rewrite <- !app_assoc.
Qed.

End WholeStream.

(** An explicit empty list of indices. *)
Lemma event_stream_empty_indices_fall_back_witness :
  match serving [] [] (indices_refresh 7 (VStr "idx1")) with
  | Raise e =>
      BaseAnalyzer.next (serving [])
        (BaseAnalyzer.event_stream (VStr "*") VNone VNone (VList [])) analyzer [] =
      (Raise e, analyzer, [] ++ [indices_refresh 7 (VStr "idx1")])
  | Return _ =>
      ∃ rest,
        (BaseAnalyzer.next (serving [])
           (BaseAnalyzer.event_stream (VStr "*") VNone VNone (VList [])) analyzer []).2 =
          [] ++ [indices_refresh 7 (VStr "idx1");
                 search_stream 7 (VStr "*") (VDict ∅) (VList [VStr "idx1"])
                   (VStr "message")] ++ rest ∧
        (rest = [] ∨ rest = [search_stream_next 7])
  end.
Proof.
  apply (event_stream_empty_indices_fall_back (serving []) (VStr "*") VNone VNone
           (VList []) analyzer []).
  reflexivity.
Defined.

(** The first hit of a stream of two. *)
Lemma next_yields_bound_event_witness :
  BaseAnalyzer.Suspended = BaseAnalyzer.Suspended ∧ analyzer = analyzer ∧
  ∃ before d,
    [indices_refresh 7 (VStr "idx1");
     search_stream 7 (VStr "*") (VDict ∅) (VList [VStr "idx1"]) (VStr "message");
     search_stream_next 7] = before ++ [search_stream_next 7] ∧
    serving [hit "ev1" ["a"]; hit "ev2" []] before (search_stream_next 7) =
      Return (VDict d) ∧
    Event.datastore (event (VInt 1) ["a"]) = 7 ∧
    Event.sketch_id (event (VInt 1) ["a"]) = VInt 1 ∧
    Event.event_id (event (VInt 1) ["a"]) = default VNone (d !! "_id") ∧
    Event.event_type (event (VInt 1) ["a"]) = default VNone (d !! "_type") ∧
    Event.index_name (event (VInt 1) ["a"]) = default VNone (d !! "_index") ∧
    Event.source (event (VInt 1) ["a"]) = default VNone (d !! "_source").
Proof.
  apply (next_yields_bound_event (serving [hit "ev1" ["a"]; hit "ev2" []])
           (BaseAnalyzer.event_stream (VStr "*") VNone VNone VNone) analyzer []).
  vm_compute. reflexivity.
Defined.

Section Draining.
Context (env : Env).

Lemma hits_served_app l1 l2 :
  hits_served (l1 ++ l2) = hits_served l1 + hits_served l2.
Proof. unfold hits_served. by rewrite List.filter_app, length_app. Qed.

Lemma hits_served_refreshes ds items :
  hits_served (indices_refresh ds <$> items) = 0.
Proof. by induction items. Qed.

Lemma refresh_each_answered ds items : ∀ self log,
  (∀ l index, ∃ v, env l (indices_refresh ds index) = Return v) →
  BaseAnalyzer.refresh_each env ds items self log =
    (Return tt, self, log ++ (indices_refresh ds <$> items)).
Proof.
  induction items as [|index rest IH]; intros self log Hok; simpl.
  - unfold_M. by rewrite app_nil_r.
  - unfold_M. destruct (Hok log index) as [v ->].
    rewrite IH by done. by rewrite <- app_assoc.
Qed.

(** One turn of [list(g)]. *)
Lemma collect_step fuel g self log :
  collect env (S fuel) g self log =
    match BaseAnalyzer.next env g self log with
    | (Return (None, _), self1, log1) => (Return (Some []), self1, log1)
    | (Return (Some ev, g1), self1, log1) =>
        match collect env fuel g1 self1 log1 with
        | (Return rest, self2, log2) => (Return (cons ev <$> rest), self2, log2)
        | (Raise e, self2, log2) => (Raise e, self2, log2)
        end
    | (Raise e, self1, log1) => (Raise e, self1, log1)
    end.
Proof.
  simpl. unfold_M.
  destruct (BaseAnalyzer.next env g self log) as [[[[[ev|] g1]|e] self1] log1];
    simpl; [|done..].
  by destruct (collect env fuel g1 self1 log1) as [[[rest|e] self2] log2].
Qed.

(** Draining a stream that is under way: the hits not yet served become
    Events, and one more request finds the stream exhausted. *)
Lemma collect_suspended self (hits : list (gmap string value)) :
  stream_serves env (BaseAnalyzer.datastore self) (VDict <$> hits) →
  ∀ fuel k log,
    hits_served log = k → length hits - k < fuel →
    collect env fuel BaseAnalyzer.Suspended self log =
      (Return (Some (event_of_hit self <$> drop k hits)), self,
       log ++ replicate (S (length hits - k))
                (search_stream_next (BaseAnalyzer.datastore self))).
Proof.
  intros Hserves. induction fuel as [|fuel IH]; intros k log Hk Hfuel; [lia|].
  rewrite collect_step. simpl BaseAnalyzer.next.
  pose proof (Hserves log) as Hanswer. rewrite Hk, list_lookup_fmap in Hanswer.
  destruct (hits !! k) as [d|] eqn:Hd; simpl in Hanswer.
  - rewrite (next_event_hit env self log d Hanswer).
    pose proof (lookup_lt_Some _ _ _ Hd) as Hlt.
    assert (Hserved : hits_served
              (log ++ [search_stream_next (BaseAnalyzer.datastore self)]) = S k).
    { rewrite hits_served_app, Hk. unfold hits_served. simpl. lia. }
    assert (Hleft : length hits - S k < fuel) by lia.
    rewrite (IH (S k) _ Hserved Hleft).
    rewrite (drop_S _ _ _ Hd).
    replace (length hits - k) with (S (length hits - S k)) by lia.
    simpl. by rewrite <- app_assoc.
  - rewrite (next_event_stop env self log Hanswer).
    apply lookup_ge_None in Hd.
    rewrite drop_ge by done.
    replace (length hits - k) with 0 by lia. done.
Qed.

(** X15: over a stream that serves the hits [hits] and then stops, with
    refreshes and the search answered, [list(event_stream(...))] returns
    one Event per hit, in the order of the hits.  The indices are
    refreshed once and the search made once, before the first hit; after
    that the only calls are one request per hit and the one that finds
    the stream exhausted. *)
Theorem collect_whole_stream
    query_string query_filter return_fields indices self log
    (hits : list (gmap string value)) items fuel :
  let ds := BaseAnalyzer.datastore self in
  let effective :=
    if negb (truthy indices) then VList [BaseAnalyzer.index_name self]
    else indices in
  let search :=
    search_stream ds query_string
      (if negb (truthy query_filter) then VDict ∅ else query_filter)
      effective
      (if negb (truthy return_fields) then VStr "message" else return_fields) in
  Py.iter effective = Return items →
  (∀ l index, ∃ v, env l (indices_refresh ds index) = Return v) →
  (∀ l, ∃ v, env l search = Return v) →
  stream_serves env ds (VDict <$> hits) →
  hits_served log = 0 →
  length hits < fuel →
  collect env fuel
    (BaseAnalyzer.event_stream query_string query_filter return_fields indices)
    self log =
  (Return (Some (event_of_hit self <$> hits)), self,
   log ++ (indices_refresh ds <$> items) ++
     search :: replicate (S (length hits)) (search_stream_next ds)).
Proof.
  intros ds effective search Hiter Hrefresh Hsearch Hserves Hlog Hfuel.
  destruct fuel as [|fuel]; [lia|].
  pose proof (collect_suspended self hits Hserves (S fuel) 0
                ((log ++ (indices_refresh ds <$> items)) ++ [search])) as Hrest.
  rewrite collect_step in Hrest. simpl BaseAnalyzer.next in Hrest.
  rewrite collect_step, next_created_run. cbv zeta.
  fold ds. fold effective. fold search. rewrite Hiter.
  rewrite refresh_each_answered by done.
  destruct (Hsearch (log ++ (indices_refresh ds <$> items))) as [v ->].
  rewrite Hrest.
  - rewrite drop_0, Nat.sub_0_r. f_equal. by rewrite <- !app_assoc.
  - rewrite !hits_served_app, Hlog, hits_served_refreshes. done.
  - lia.
Qed.

End Draining.

(** A stream of two hits, drained with fuel to spare. *)
Lemma collect_whole_stream_witness :
  let hits : list (gmap string value) :=
    [ <[ "_id" := VStr "ev1" ]> {[ "_source" := VDict {[ "tag" := VList [VStr "a"] ]} ]};
      {[ "_id" := VStr "ev2" ]} ] in
  collect (serving (VDict <$> hits)) 5
    (BaseAnalyzer.event_stream (VStr "*") VNone VNone VNone) analyzer [] =
  (Return (Some (event_of_hit analyzer <$> hits)), analyzer,
   [] ++ (indices_refresh 7 <$> [VStr "idx1"]) ++
     search_stream 7 (VStr "*") (VDict ∅) (VList [VStr "idx1"]) (VStr "message")
     :: replicate (S (length hits)) (search_stream_next 7)).
Proof.
  intros hits.
  apply (collect_whole_stream (serving (VDict <$> hits)) (VStr "*") VNone VNone VNone
           analyzer [] hits [VStr "idx1"] 5).
  - reflexivity.
  - intros l index. by eexists.
  - intros l. by eexists.
  - intros l. reflexivity.
  - reflexivity.
  - simpl. lia.
Defined.
